(** * devodsconnector: typed streaming query pipeline and adaptive sampler

    A shallow embedding of [devodsconnector/reader.py] (class [Reader]) and of
    the pipeline of the older [api.py] (class [API]).

    Conventions of the embedding.
    - Python [int] is [Z]; a finite Python [float] is carried as the rational
      it is ([Q]). Where the code converts time, every float operation is
      rounded to the nearest double ([round_double]); the search of the
      sampler is carried out over the rationals.
    - [bytes] and [str] are both [string]; decoding is a library function.
    - A [dict] is a [gmap]; a generator is the finite trace [gen] of what it
      yields before it stops or raises.
    - Code that talks to the service runs in the monad [M], whose state is the
      log of requests sent and warnings emitted so far.
    - Functions of the Python standard library, numpy, scipy, pandas and the
      service client are fields of the class [Env]; the text of a cell is in
      [Printing], the credentials file in [Files], the HTTP side of [api.py]
      in [ApiEnv]. *)

From Stdlib Require Import ZArith QArith Qabs String Ascii List Lia Bool DecimalString.
From stdpp Require Import base gmap strings list sorting.

#[local] Set Warnings "-register-all,-clear-no-such-hyp".

Open Scope string_scope.
Open Scope Z_scope.

(** ** Python values *)

(** [datetime.datetime]: wall-clock fields and an optional [tzinfo], kept as
    its UTC offset in seconds. *)
Record datetime := mk_datetime {
  year : Z; month : Z; day : Z;
  hour : Z; minute : Z; second : Z; microsecond : Z;
  tzinfo : option Z
}.

(** [pandas.Timestamp]: a datetime with three more digits. *)
Record Timestamp := mk_Timestamp {
  ts_fields : datetime;
  nanosecond : Z
}.

Inductive exn :=
| Exception (msg : string)
| AssertionError (msg : string)
| StatusError (status : Z)
| ValueError
| TypeError
| KeyError (key : string)
| IndexError
| StopIteration
| RuntimeError
| UnboundLocalError
| ZeroDivisionError
| AttributeError
| OverflowError
| TransportError (msg : string).

(** What a call does: return, raise, or still loop when the fuel is spent. *)
Inductive outcome (A : Type) :=
| Return (a : A)
| Raise (e : exn)
| OutOfFuel.
Arguments Return {A} a.
Arguments Raise {A} e.
Arguments OutOfFuel {A}.

(** What a cell holds. [VTimestamp] and [VNaT] are what pandas hands back
    from a column of dates. *)
Inductive value :=
| VNone
| VStr (s : string)
| VInt (z : Z)
| VFloat (q : Q)
| VBool (b : bool)
| VDatetime (d : datetime)
| VTimestamp (t : Timestamp)
| VNaN
| VNaT.

(** Arguments accepted as a date by [_to_unix]. *)
Inductive date :=
| DNone
| DStr (s : string)
| DDatetime (d : datetime)
| DTimestamp (t : Timestamp)
| DInt (z : Z)
| DFloat (q : Q)
| DOther.

(** A Python number, as a sample size or as an epoch: an [int] or a [float]. *)
Inductive number :=
| NInt (z : Z)
| NFloat (q : Q).

Inductive json :=
| JNull
| JBool (b : bool)
| JNum (z : Z)
| JStr (s : string)
| JArr (items : list json)
| JObj (members : list (string * json)).

(** ** Generators *)

(** The trace of a generator: the values it yields, then [StopIteration]
    ([GStop]) or an exception. *)
Inductive gen (A : Type) :=
| GStop
| GRaise (e : exn)
| GYield (a : A) (rest : gen A).
Arguments GStop {A}.
Arguments GRaise {A} e.
Arguments GYield {A} a rest.

Fixpoint gen_of_list {A} (l : list A) : gen A :=
  match l with
  | [] => GStop
  | a :: l => GYield a (gen_of_list l)
  end.

(** [next(g)] *)
Definition next {A} (g : gen A) : outcome (A * gen A) :=
  match g with
  | GStop => Raise StopIteration
  | GRaise e => Raise e
  | GYield a rest => Return (a, rest)
  end.

(** The values yielded before the generator ends. *)
Fixpoint yielded {A} (g : gen A) : list A :=
  match g with
  | GYield a rest => a :: yielded rest
  | _ => []
  end.

(** How the generator ends: [None] for a normal end. *)
Fixpoint ending {A} (g : gen A) : option exn :=
  match g with
  | GStop => None
  | GRaise e => Some e
  | GYield _ rest => ending rest
  end.

(** [list(g)], or any loop that consumes [g] to its end. *)
Definition consume {A} (g : gen A) : outcome (list A) :=
  match ending g with
  | None => Return (yielded g)
  | Some e => Raise e
  end.

(** [for a in g: yield f(a)], where [f] may raise. *)
Fixpoint gen_for {A B} (f : A -> outcome B) (g : gen A) : gen B :=
  match g with
  | GStop => GStop
  | GRaise e => GRaise e
  | GYield a rest =>
      match f a with
      | Return b => GYield b (gen_for f rest)
      | Raise e => GRaise e
      | OutOfFuel => GRaise RuntimeError
      end
  end.

(** A generator that yields the items of [l] and then ends like [g]. *)
Fixpoint gen_app {A} (l : list A) (g : gen A) : gen A :=
  match l with
  | [] => g
  | a :: l => GYield a (gen_app l g)
  end.

Definition gen_end {A B} (g : gen A) : gen B :=
  match ending g with
  | None => GStop
  | Some e => GRaise e
  end.

(** ** Requests, responses and the world *)

(** What [Reader._query] hands to the service client. *)
Record request := mk_request {
  req_query : string;
  req_from : option Z;
  req_to : option Z;
  req_mode : string;
  req_stream : bool;
  req_limit : option Z
}.

(** What the client gives back: a body of text, an iterator of byte lines, or
    a transport failure. *)
Inductive response :=
| RText (body : string)
| RLines (lines : list string)
| RFail (e : exn).

Record world := mk_world {
  sent : list request;
  warned : list string
}.

Definition M (A : Type) : Type := world -> outcome A * world.

Definition ret {A} (a : A) : M A := fun w => (Return a, w).
Definition raise {A} (e : exn) : M A := fun w => (Raise e, w).
Definition bind {A B} (m : M A) (k : A -> M B) : M B :=
  fun w =>
    match m w with
    | (Return a, w') => k a w'
    | (Raise e, w') => (Raise e, w')
    | (OutOfFuel, w') => (OutOfFuel, w')
    end.
Definition lift {A} (o : outcome A) : M A := fun w => (o, w).

Declare Scope py_scope.
Delimit Scope py_scope with py.
Notation "x <- m ;; k" := (bind m (fun x => k))
  (at level 100, m at next level, right associativity) : py_scope.
Notation "m ;;; k" := (bind m (fun _ => k))
  (at level 100, right associativity) : py_scope.

(** [warnings.warn(msg)] *)
Definition warn (msg : string) : M unit :=
  fun w => (Return tt, mk_world (sent w) (warned w ++ [msg])).

(** ** The library functions and the service

    Everything the repository imports and does not define. *)
Class Env := {
  (** [json.loads]; [None] is [ValueError] *)
  json_loads : string -> option json;
  (** [bytes.decode('utf-8')]; [None] is [UnicodeDecodeError] *)
  utf8_decode : string -> option string;
  (** [str.strip] *)
  str_strip : string -> string;
  (** [csv.reader] over the lines it is given *)
  csv_reader : list string -> list (list string);
  (** [int(s)] and [float(s)] on a string; [None] is [ValueError] *)
  py_int : string -> option Z;
  py_float : string -> option Q;
  (** [datetime.strptime(s, '%Y-%m-%d %H:%M:%S.%f')]; [None] is [ValueError] *)
  strptime : string -> option datetime;
  (** [datetime.isoformat] *)
  isoformat : datetime -> string;
  (** [datetime.timestamp] of a naive datetime (local time) *)
  local_timestamp : datetime -> Q;
  (** [pandas.to_datetime] on a string; [None] is [ValueError] *)
  pd_to_datetime : string -> option Timestamp;
  (** [datetime.datetime.now().timestamp()] *)
  now_timestamp : Q;
  (** [str(p)] of a float inside an f-string *)
  float_str : Q -> string;
  (** [numpy.sqrt] *)
  np_sqrt : Q -> Q;
  (** [scipy.stats.norm.sf(x, loc, scale)] *)
  norm_sf : Q -> Q -> Q -> Q;
  (** The row positions [DataFrame.sample(k)] draws from [n] rows *)
  sample_positions : nat -> nat -> list nat;
  (** The cells [pandas.DataFrame] keeps for a column it builds from these
      objects, one for each: the dtype it infers for the column decides what
      becomes of them (an [int] next to a missing cell becomes a [float]) *)
  maybe_convert_objects : list value -> list value;
  (** [namedtuple('Row', cols)] accepts the field names *)
  valid_field_names : list string -> bool;
  (** [devo.api.Client.query]: the answer to a request, given the requests
      sent before it *)
  client_query : list request -> request -> response
}.

(** [str(x)] of a cell of a frame. *)
Class Printing := {
  value_str : value -> string
}.

(** A parsed credentials file: [profile in config] and
    [config[profile].get(option)]. *)
Record config := mk_config {
  has_section : string -> bool;
  get_option : string -> string -> option string
}.

(** The file system as [Reader.__init__] sees it. *)
Class Files := {
  (** [Path.home() / '.devo_credentials'] *)
  home_credentials : string;
  (** [Path(path).resolve().expanduser()] *)
  resolve_path : string -> string;
  (** [ConfigParser.read(path)]: a file that is missing reads as a
      configuration without sections *)
  config_read : string -> config
}.

(** ** Calendar arithmetic of [datetime] *)

Definition is_leap (y : Z) : bool :=
  (y mod 4 =? 0) && (negb (y mod 100 =? 0) || (y mod 400 =? 0)).

Definition days_before_year (y : Z) : Z :=
  let y := y - 1 in y * 365 + y / 4 - y / 100 + y / 400.

Definition days_before_month (y m : Z) : Z :=
  nth (Z.to_nat m) [0; 0; 31; 59; 90; 120; 151; 181; 212; 243; 273; 304; 334] 0
  + (if (2 <? m) && is_leap y then 1 else 0).

(** [date.toordinal] *)
Definition toordinal (d : datetime) : Z :=
  days_before_year (year d) + days_before_month (year d) (month d) + day d.

(** Microseconds from 1970-01-01 00:00:00 to the wall-clock fields of [d],
    whatever its [tzinfo]. *)
Definition wall_us (d : datetime) : Z :=
  ((toordinal d - 719163) * 86400 + hour d * 3600 + minute d * 60 + second d)
  * 1000000 + microsecond d.

(** The fields [datetime] accepts: years 1 to 9999. *)
Definition valid_datetime (d : datetime) : Prop :=
  1 <= year d <= 9999 /\ 1 <= month d <= 12 /\ 1 <= day d <= 31
  /\ 0 <= hour d < 24 /\ 0 <= minute d < 60 /\ 0 <= second d < 60
  /\ 0 <= microsecond d < 1000000.

(** [d.replace(tzinfo=tz)] *)
Definition replace_tzinfo (d : datetime) (tz : option Z) : datetime :=
  mk_datetime (year d) (month d) (day d) (hour d) (minute d) (second d)
              (microsecond d) tz.

Definition Timestamp_replace_tzinfo (t : Timestamp) (tz : option Z) : Timestamp :=
  mk_Timestamp (replace_tzinfo (ts_fields t) tz) (nanosecond t).

(** ** Floats

    What a float operation returns is its exact result rounded to the nearest
    double, ties to even. *)

(** [a / b] rounded to the nearest integer, ties to even. *)
Definition round_half_even (a b : Z) : Z :=
  let q := a / b in
  let r := a mod b in
  if 2 * r <? b then q
  else if b <? 2 * r then q + 1
  else if Z.even q then q else q + 1.

(** The exponent of the power of two at or below [a / b], for positive [a]
    and [b]. *)
Definition binade (a b : Z) : Z :=
  let l := Z.log2 a - Z.log2 b in
  if (if 0 <=? l then b * 2 ^ l <=? a else b <=? a * 2 ^ (- l)) then l else l - 1.

(** The double nearest to [x]: 53 significant bits, the last of them worth
    [2 ^ e], and [e] not below -1074. *)
Definition round_double (x : Q) : Q :=
  let a := Z.abs (Qnum x) in
  let b := Z.pos (Qden x) in
  if a =? 0 then 0%Q
  else
    let e := Z.max (binade a b - 52) (-1074) in
    if 0 <=? e
    then inject_Z (Z.sgn (Qnum x) * round_half_even a (b * 2 ^ e) * 2 ^ e)
    else Qred ((Z.sgn (Qnum x) * round_half_even (a * 2 ^ (- e)) b) # Z.to_pos (2 ^ (- e))).

(** [x * y] on floats; [None] is an infinity. *)
Definition float_mul (x y : Q) : option Q :=
  let r := round_double (x * y) in
  if Qle_bool (inject_Z (2 ^ 1024)) (Qabs r) then None else Some r.

(** [round(x, 6)] on a float: the nearest decimal of six places, ties to
    even, and then the double nearest to that. *)
Definition round6 (x : Q) : Q :=
  round_double (round_half_even (Qnum x * 1000000) (Z.pos (Qden x)) # 1000000).

(** [datetime.timestamp]: an aware datetime is [(self - EPOCH).total_seconds()],
    the microseconds between the two divided by [10**6]; a naive one is read
    as local time. *)
Definition datetime_timestamp `{Env} (d : datetime) : Q :=
  match tzinfo d with
  | Some off => round_double ((wall_us d - off * 1000000) # 1000000)
  | None => local_timestamp d
  end.

(** Nanoseconds from 1970-01-01 00:00:00 to the wall-clock fields of [t]. *)
Definition wall_ns (t : Timestamp) : Z :=
  wall_us (ts_fields t) * 1000 + nanosecond t.

(** [Timestamp.timestamp]: [round(self.value / 1e9, 6)], where [value] counts
    the nanoseconds since the epoch in UTC (a naive Timestamp is taken as
    UTC); [value] becomes a float before it is divided. *)
Definition Timestamp_timestamp (t : Timestamp) : Q :=
  let off := match tzinfo (ts_fields t) with Some off => off | None => 0 end in
  let value := wall_ns t - off * 1000000000 in
  round6 (round_double (round_double (inject_Z value) / 1000000000)).

(** [int(x)] on a float: truncation toward zero. *)
Definition int_of_float (x : Q) : Z := Z.quot (Qnum x) (Z.pos (Qden x)).

Definition Qltb (a b : Q) : bool := negb (Qle_bool b a).

Definition Q_of_number (x : number) : Q :=
  match x with
  | NInt z => inject_Z z
  | NFloat q => q
  end.

(** [date is None] *)
Definition is_None (d : date) : bool :=
  match d with
  | DNone => true
  | _ => false
  end.

(** ** [devodsconnector/reader.py] *)

Module Reader.
Section Reader.
Context `{Env}.

Definition _to_unix (d : date) (milliseconds : bool) : outcome (option Z) :=
  let finish (epoch : number) :=
    match epoch with
    | NInt z => Return (Some (if milliseconds then z * 1000 else z))
    | NFloat x =>
        if milliseconds
        then match float_mul x 1000 with
             | Some x => Return (Some (int_of_float x))
             | None => Raise OverflowError
             end
        else Return (Some (int_of_float x))
    end in
  match d with
  | DNone => Return None
  | DStr s =>
      if String.eqb s "now" then finish (NFloat now_timestamp)
      else match pd_to_datetime s with
           | Some t => finish (NFloat (Timestamp_timestamp t))
           | None => Raise ValueError
           end
  | DTimestamp t =>
      finish (NFloat (Timestamp_timestamp (Timestamp_replace_tzinfo t (Some 0))))
  | DDatetime d => finish (NFloat (datetime_timestamp (replace_tzinfo d (Some 0))))
  | DInt z => finish (NInt z)
  | DFloat q => finish (NFloat q)
  | DOther => Raise (Exception "Invalid Date")
  end.

(** [self.client.query(...)]: one request goes out and is logged; a failure
    of the transport is raised as it is. *)
Definition send (r : request) : M response :=
  fun w =>
    let w' := mk_world (sent w ++ [r]) (warned w) in
    match client_query (sent w) r with
    | RFail e => (Raise e, w')
    | response => (Return response, w')
    end.

Definition _query (linq_query : string) (start stop : date) (mode : string)
    (stream : bool) (limit : option Z) : M response :=
  (start <- lift (_to_unix start false);;
   stop <- lift (_to_unix stop false);;
   send (mk_request linq_query start stop mode stream limit))%py.

Definition converter := string -> outcome value.

Definition _null_decorator (f : converter) : converter :=
  fun v => if String.eqb v "" then Return VNone else f v.

Definition of_option {A} (e : exn) (o : option A) : outcome A :=
  match o with
  | Some a => Return a
  | None => Raise e
  end.

Definition ts_formats : list string := ["datetime"; "iso"; "timestamp"].

Definition make_ts_func (ts_format : string) : outcome converter :=
  if negb (bool_decide (ts_format ∈ ts_formats))
  then Raise (Exception "ts_format must be one of: datetime, iso, or timestamp ")
  else Return (fun t =>
    match strptime (str_strip t) with
    | None => Raise ValueError
    | Some dt =>
        if String.eqb ts_format "datetime" then Return (VDatetime dt)
        else if String.eqb ts_format "iso" then Return (VStr (isoformat dt))
        else if String.eqb ts_format "timestamp" then Return (VFloat (datetime_timestamp dt))
        else Raise (Exception "ts_format must be one of: datetime, iso, or timestamp ")
    end).

Definition str : converter := fun v => Return (VStr v).
Definition int : converter := fun v => of_option ValueError (VInt <$> py_int v).
Definition float : converter := fun v => of_option ValueError (VFloat <$> py_float v).
Definition bool_of_str : converter := fun b => Return (VBool (String.eqb b "true")).

(** A [defaultdict]: the entries and the value a missing key gets. *)
Record defaultdict := mk_defaultdict {
  dd_default : converter;
  dd_items : gmap string converter
}.

(** [type_map[tag]] *)
Definition dd_get (m : defaultdict) (tag : string) : converter :=
  default (dd_default m) (dd_items m !! tag).

Definition funcs (ts_func : converter) : gmap string converter :=
  <["bool" := bool_of_str]>
  (<["float4" := float]>
  (<["float8" := float]>
  (<["int4" := int]>
  (<["int8" := int]>
  (<["str" := str]>
  (<["timestamp" := ts_func]> ∅)))))).

Definition _make_type_map (ts_format : string) : outcome defaultdict :=
  match make_ts_func ts_format with
  | Return ts_func =>
      let decorated_funcs := _null_decorator <$> funcs ts_func in
      let decorated_str := _null_decorator str in
      Return (mk_defaultdict decorated_str decorated_funcs)
  | Raise e => Raise e
  | OutOfFuel => OutOfFuel
  end.

(** [d[key]] on the members of a JSON object *)
Fixpoint jget (key : string) (members : list (string * json)) : option json :=
  match members with
  | [] => None
  | (k, v) :: members => if String.eqb k key then Some v else jget key members
  end.

(** [data[key]] on a decoded JSON value *)
Definition subscript (data : json) (key : string) : outcome json :=
  match data with
  | JObj members => of_option (KeyError key) (jget key members)
  | _ => Raise TypeError
  end.

(** Modelled from the spec: [check_status] of [devodsconnector/error_checking.py],
    which is imported by [reader.py] and is not among the sources. The spec has
    the probe fail when "the service reports a non-success status" and the
    decoder fail when the first line "parses and signals a failure status";
    success is status 0. *)
Definition check_status (data : json) : outcome unit :=
  match data with
  | JObj members =>
      match jget "status" members with
      | Some (JNum 0) => Return tt
      | Some (JNum st) => Raise (StatusError st)
      | _ => Return tt
      end
  | _ => Return tt
  end.

(** [type_map[v['type']]]: a tag that is no string but hashable is a missing
    key; a list or an object is unhashable. *)
Definition type_of_tag (type_map : defaultdict) (tag : json) : outcome converter :=
  match tag with
  | JStr s => Return (dd_get type_map s)
  | JArr _ | JObj _ => Raise TypeError
  | _ => Return (dd_default type_map)
  end.

(** [{ c:type_map[v['type']] for c,v in col_data.items() }] *)
Fixpoint type_dict_of (type_map : defaultdict) (col_data : list (string * json))
    (acc : gmap string converter) : outcome (gmap string converter) :=
  match col_data with
  | [] => Return acc
  | (c, v) :: col_data =>
      match subscript v "type" with
      | Return tag =>
          match type_of_tag type_map tag with
          | Return t => type_dict_of type_map col_data (<[c := t]> acc)
          | Raise e => Raise e
          | OutOfFuel => OutOfFuel
          end
      | Raise e => Raise e
      | OutOfFuel => OutOfFuel
      end
  end.

(** [json.loads(response)] then [check_status(data)], with [ValueError]
    turned into the probe's own exception. *)
Definition loads_checked (response : response) : outcome json :=
  match response with
  | RText body =>
      match json_loads body with
      | None => Raise (Exception "API V2 response error")
      | Some data =>
          match check_status data with
          | Return _ => Return data
          | Raise ValueError => Raise (Exception "API V2 response error")
          | Raise e => Raise e
          | OutOfFuel => OutOfFuel
          end
      end
  | RLines _ => Raise TypeError
  | RFail e => Raise e
  end.

Definition _get_types (linq_query : string) (start : date) (ts_format : string)
    : M (gmap string converter) :=
  (type_map <- lift (_make_type_map ts_format);;
   stop <- lift (_to_unix start false);;
   match stop with
   | None => raise TypeError
   | Some stop =>
       let start := stop - 1 in
       response <- _query linq_query (DInt start) (DInt stop) "json/compact" false (Some 1);;
       data <- lift (loads_checked response);;
       object <- lift (subscript data "object");;
       col_data <- lift (subscript object "m");;
       match col_data with
       | JObj col_data => lift (type_dict_of type_map col_data ∅)
       | _ => raise AttributeError
       end
   end)%py.

(** The try block of [_decode_results]: does the first line carry a failure
    status? A line that is no JSON is let through. *)
Definition first_line_status (first : string) : outcome unit :=
  match json_loads first with
  | None => Return tt
  | Some data =>
      match check_status data with
      | Raise ValueError => Return tt
      | o => o
      end
  end.

Definition decode (l : string) : outcome string := of_option ValueError (utf8_decode l).

(** [_decode_results(r)]. An empty iterator makes [next(r)] raise
    [StopIteration] inside the generator, which surfaces as [RuntimeError];
    a [str] is iterated by character and has no [decode]. *)
Definition _decode_results (r : response) : gen string :=
  match r with
  | RLines [] => GRaise RuntimeError
  | RLines (first :: rest) =>
      match first_line_status first with
      | Return _ =>
          match decode first with
          | Return l => GYield (str_strip l) (gen_for decode (gen_of_list rest))
          | Raise e => GRaise e
          | OutOfFuel => GRaise RuntimeError
          end
      | Raise e => GRaise e
      | OutOfFuel => GRaise RuntimeError
      end
  | RText "" => GRaise RuntimeError
  | RText _ => GRaise AttributeError
  | RFail e => GRaise e
  end.

(** [csv.reader(lines)]: the records of the lines that arrive, then the end of
    the underlying generator. *)
Definition csv_reader_gen (lines : gen string) : gen (list string) :=
  gen_app (csv_reader (yielded lines)) (gen_end lines).

(** [[f(a) for a in l]] *)
Fixpoint for_list {A B} (f : A -> outcome B) (l : list A) : outcome (list B) :=
  match l with
  | [] => Return []
  | a :: l =>
      match f a with
      | Return b =>
          match for_list f l with
          | Return bs => Return (b :: bs)
          | o => o
          end
      | Raise e => Raise e
      | OutOfFuel => OutOfFuel
      end
  end.

(** [[t(v) for t, v in zip(type_list, row)]] *)
Definition convert_row (type_list : list converter) (row : list string)
    : outcome (list value) :=
  for_list (fun tv : converter * string => tv.1 tv.2) (zip type_list row).

(** [[type_dict[c] for c in cols]] *)
Definition lookup_types (type_dict : gmap string converter) (cols : list string)
    : outcome (list converter) :=
  for_list (fun c => of_option (KeyError c) (type_dict !! c)) cols.

Definition duplicate_columns : string :=
  "Duplicate column names encountered, custom columns must be named".

(** [_stream], run up to its first [yield]: the column names and the generator
    of the rows that follow. Both requests are sent before the header is
    yielded. *)
Definition _stream (linq_query : string) (start stop : date) (ts_format : string)
    : M (list string * gen (list value)) :=
  (type_dict <- _get_types linq_query start ts_format;;
   result <- _query linq_query start stop "csv" true None;;
   let result := csv_reader_gen (_decode_results result) in
   match next result with
   | Return (cols, result) =>
       if negb (length cols =? size type_dict)%nat
       then raise (Exception duplicate_columns)
       else
         type_list <- lift (lookup_types type_dict cols);;
         ret (cols, gen_for (convert_row type_list) result)
   | Raise StopIteration => raise RuntimeError
   | Raise e => raise e
   | OutOfFuel => lift OutOfFuel
   end)%py.

(** *** Output shapes *)

(** [pandas.DataFrame]: the column names and the rows, each with its index
    label. *)
Record DataFrame := mk_DataFrame {
  df_columns : list string;
  df_rows : list (nat * list value)
}.

(** What [query] returns, by output shape. *)
Inductive table :=
| OfLists (rows : gen (list value))
| OfDicts (rows : gen (gmap string value))
| OfNamedtuples (rows : gen (list (string * value)))
| OfDataFrame (df : DataFrame).

Definition _to_list (results : gen (list value)) (cols : list string)
    : gen (list value) :=
  results.

(** [{c:v for c,v in zip(cols,row)}] *)
Definition dict_of (cols : list string) (row : list value) : gmap string value :=
  foldl (fun m cv => <[cv.1 := cv.2]> m) ∅ (zip cols row).

Definition _to_dict (results : gen (list value)) (cols : list string)
    : gen (gmap string value) :=
  gen_for (fun row => Return (dict_of cols row)) results.

(** The [Row] constructor wants one value per field. *)
Definition _to_namedtuple (results : gen (list value)) (cols : list string)
    : gen (list (string * value)) :=
  if valid_field_names cols
  then gen_for (fun row => if (length row =? length cols)%nat
                           then Return (zip cols row) else Raise TypeError) results
  else GRaise ValueError.

Definition widest (rows : list (list value)) : nat :=
  foldr (fun row n => Nat.max (length row) n) 0%nat rows.

(** A short row is filled with [None] up to [width]. *)
Definition pad (width : nat) (row : list value) : list value :=
  row ++ replicate (width - length row) VNone.

Definition fillna (v : value) : value :=
  match v with
  | VNone => VNaN
  | v => v
  end.

Definition number_rows (rows : list (list value)) : list (nat * list value) :=
  zip (seq 0 (length rows)) rows.

(** The objects of column [j], one from each row. *)
Definition column_objects (rows : list (list value)) (j : nat) : list value :=
  map (fun row => nth j row VNone) rows.

(** [pd.DataFrame(results, columns=cols).fillna(np.nan)]: the generator is
    consumed; the widest row must have one cell per column, shorter rows are
    filled with [None]; every column is stored as pandas converts its
    objects; the index is [0 .. n-1]; [fillna] then takes the [None] that are
    left. *)
Definition _to_dataframe (results : gen (list value)) (cols : list string)
    : outcome DataFrame :=
  match consume results with
  | Return rows =>
      if negb (bool_decide (rows = [])) && negb (widest rows =? length cols)%nat
      then Raise ValueError
      else
        let objects := map (pad (length cols)) rows in
        let columns := map (fun j => maybe_convert_objects (column_objects objects j))
                           (seq 0 (length cols)) in
        let cells (i : nat) := map (fun column => fillna (nth i column VNaN)) columns in
        Return (mk_DataFrame cols (number_rows (map cells (seq 0 (length rows)))))
  | Raise e => Raise e
  | OutOfFuel => OutOfFuel
  end.

Definition valid_outputs : list string := ["dict"; "list"; "namedtuple"; "dataframe"].

(** [getattr(self, f'_to_{output}')(results,cols)] *)
Definition project (output : string) (results : gen (list value)) (cols : list string)
    : outcome table :=
  if String.eqb output "list" then Return (OfLists (_to_list results cols))
  else if String.eqb output "dict" then Return (OfDicts (_to_dict results cols))
  else if String.eqb output "namedtuple" then Return (OfNamedtuples (_to_namedtuple results cols))
  else if String.eqb output "dataframe" then
    match _to_dataframe results cols with
    | Return df => Return (OfDataFrame df)
    | Raise e => Raise e
    | OutOfFuel => OutOfFuel
    end
  else Raise AttributeError.

Definition invalid_output : string :=
  "Output must be one of ('dict', 'list', 'namedtuple', 'dataframe')".

Definition continuous_dataframe : string :=
  "DataFrame can't be build from continuous query".

Definition query (linq_query : string) (start stop : date) (output ts_format : string)
    : M table :=
  if negb (bool_decide (output ∈ valid_outputs))
  then raise (Exception invalid_output)
  else if String.eqb output "dataframe" && is_None stop
  then raise (Exception continuous_dataframe)
  else
    (results <- _stream linq_query start stop ts_format;;
     lift (project output results.2 results.1))%py.

(** *** The sampler *)

Definition _loc_scale (n p : Q) : Q * Q :=
  let loc := (n * p)%Q in
  let scale := np_sqrt (n * p * (1 - p))%Q in
  (loc, scale).

(** [min(a, b)] of Python: [b] only when it is smaller. *)
Definition py_min (a b : Q) : Q := if Qltb b a then b else a.

(** The test of the loop of [_find_optimal_p]. *)
Definition tail_ok (n k threshold p : Q) : bool :=
  let ls := _loc_scale n p in
  Qltb threshold (norm_sf (k - (1 # 2))%Q ls.1 ls.2).

(** [p = min(1.001*p, 1)] *)
Definition grow (p : Q) : Q := py_min ((1001 # 1000) * p)%Q 1.

(** The [while True] of [_find_optimal_p], from the current [p]. *)
Fixpoint search (fuel : nat) (n k threshold p : Q) : outcome Q :=
  match fuel with
  | O => OutOfFuel
  | S fuel =>
      if tail_ok n k threshold p then Return p
      else search fuel n k threshold (grow p)
  end.

Definition _find_optimal_p (fuel : nat) (n k threshold : Q) : outcome Q :=
  if Qeq_bool n 0 then Raise ZeroDivisionError
  else search fuel n k threshold (k / n)%Q.

(** [df.sample(k)]: [k] rows at the positions the generator draws, in the
    order drawn; more rows than there are is an error. *)
Definition df_sample (k : nat) (df : DataFrame) : outcome DataFrame :=
  let n := length (df_rows df) in
  if (k <=? n)%nat
  then Return (mk_DataFrame (df_columns df)
                 (omap (fun i => df_rows df !! i) (sample_positions n k)))
  else Raise ValueError.

Fixpoint insert_row (r : nat * list value) (rows : list (nat * list value))
    : list (nat * list value) :=
  match rows with
  | [] => [r]
  | x :: rows' => if (r.1 <=? x.1)%nat then r :: rows else x :: insert_row r rows'
  end.

(** [df.sort_index()] *)
Definition sort_index (df : DataFrame) : DataFrame :=
  mk_DataFrame (df_columns df) (foldr insert_row [] (df_rows df)).

(** [df.reset_index(drop=True)] *)
Definition reset_index (df : DataFrame) : DataFrame :=
  mk_DataFrame (df_columns df) (number_rows (map snd (df_rows df))).

(** [df.shape[0]] *)
Definition shape0 (df : DataFrame) : Z := Z.of_nat (length (df_rows df)).

(** A number out of a cell, as far as [>=] and [/] take one. *)
Definition as_number (v : value) : outcome Q :=
  match v with
  | VInt z => Return (inject_Z z)
  | VFloat q => Return q
  | VBool b => Return (if b then 1%Q else 0%Q)
  | _ => Raise TypeError
  end.

(** [row[0]] *)
Definition first_cell (row : list value) : outcome value :=
  of_option IndexError (head row).

Definition size_query (linq_query : string) : string :=
  linq_query ++ " group select count() as count".

(** The count query of [randomSample]:
    [r = self.query(size_query,start,stop,output='list'); table_size = next(r)[0]]. *)
Definition table_size (linq_query : string) (start stop : date) : M value :=
  (r <- query (size_query linq_query) start stop "list" "datetime";;
   match r with
   | OfLists r =>
       match next r with
       | Return (row, _) => lift (first_cell row)
       | Raise e => raise e
       | OutOfFuel => lift OutOfFuel
       end
   | _ => raise TypeError
   end)%py.

Definition sample_query (linq_query : string) (p : Q) : string :=
  linq_query ++ " where simplify(float8(rand())) < " ++ float_str p.

Definition full_table_warning : string :=
  "Sample size greater than or equal to total table size. Returning full table".

Definition positive_int : string := "Sample size must be a positive int".

(** The [while True] of [randomSample]: query again until enough rows come. *)
Fixpoint sample_loop (fuel : nat) (sample_query : string) (start stop : date)
    (sample_size : Z) : M table :=
  match fuel with
  | O => lift OutOfFuel
  | S fuel =>
      (t <- query sample_query start stop "dataframe" "datetime";;
       match t with
       | OfDataFrame df =>
           if sample_size <=? shape0 df
           then
             match df_sample (Z.to_nat sample_size) df with
             | Return s => ret (OfDataFrame (reset_index (sort_index s)))
             | Raise e => raise e
             | OutOfFuel => lift OutOfFuel
             end
           else sample_loop fuel sample_query start stop sample_size
       | _ => raise AttributeError
       end)%py
  end.

(** [sample_size < 1] *)
Definition less_than_one (sample_size : number) : bool :=
  match sample_size with
  | NInt z => z <? 1
  | NFloat q => Qltb q 1
  end.

(** [isinstance(sample_size, int)] *)
Definition isinstance_int (sample_size : number) : bool :=
  match sample_size with
  | NInt _ => true
  | NFloat _ => false
  end.

Definition randomSample (fuel : nat) (linq_query : string) (start stop : date)
    (sample_size : number) : M table :=
  if less_than_one sample_size || negb (isinstance_int sample_size)
  then raise (Exception positive_int)
  else
    match sample_size with
    | NInt sample_size =>
        (size <- table_size linq_query start stop;;
         n <- lift (as_number size);;
         if Qle_bool n (inject_Z sample_size)
         then
           warn full_table_warning;;;
           query linq_query start stop "dataframe" "datetime"
         else
           p <- lift (_find_optimal_p fuel n (inject_Z sample_size) (99 # 100));;
           sample_loop fuel (sample_query linq_query p) start stop sample_size)%py
    | NFloat _ => raise TypeError
    end.

(** *** The stratified sampler *)

Context `{Printing}.

(** [','.join(items)] *)
Fixpoint join (sep : string) (items : list string) : string :=
  match items with
  | [] => ""
  | [x] => x
  | x :: items => x ++ sep ++ join sep items
  end.

Definition dquote : string := String (ascii_of_nat 34) EmptyString.

(** The position of the first column named [column]. *)
Fixpoint column_index (column : string) (columns : list string) : option nat :=
  match columns with
  | [] => None
  | c :: columns =>
      if String.eqb c column then Some 0%nat
      else S <$> column_index column columns
  end.

Definition occurrences (column : string) (columns : list string) : nat :=
  length (filter (fun c => c = column) columns).

(** What [for x in df[column]] goes through, each item as [str(x)]: a name no
    column has is a [KeyError]; the cells of the column when one column has
    the name; when several have it, [df[column]] is a frame and iterating it
    gives its column names. *)
Definition column_items (df : DataFrame) (column : string) : outcome (list string) :=
  match occurrences column (df_columns df), column_index column (df_columns df) with
  | 1%nat, Some i =>
      Return (map (fun r : nat * list value => value_str (nth i r.2 VNaN)) (df_rows df))
  | S (S m), _ => Return (replicate (S (S m)) column)
  | _, _ => Raise (KeyError column)
  end.

Definition population_query (query column : string) : string :=
  query ++ " group by " ++ column.

(** [f'{query} where str({column}) in {{{sample_set}}}'] *)
Definition membership_query (query column : string) (population : list string) : string :=
  query ++ " where str(" ++ column ++ ") in {"
  ++ join "," (map (fun x => dquote ++ x ++ dquote) population) ++ "}".

Definition population_sample (fuel : nat) (query0 : string) (start stop : date)
    (column : string) (sample_size : number) : M table :=
  (t <- randomSample fuel (population_query query0 column) start stop sample_size;;
   match t with
   | OfDataFrame df =>
       population <- lift (column_items df column);;
       query (membership_query query0 column population) start stop
         "dataframe" "datetime"
   | _ => raise TypeError
   end)%py.

(** *** Credentials *)

Context `{Files}.

(** The attributes of a [Reader] that [__init__] sets. *)
Record attributes := mk_attributes {
  profile : string;
  key : option string;
  secret : option string;
  address : option string;
  token : option string;
  jwt : option string;
  credential_path : string
}.

(** Truth value of an attribute: [None] and the empty string are false. *)
Definition truthy (a : option string) : bool :=
  match a with
  | Some s => negb (String.eqb s "")
  | None => false
  end.

(** [self.end_point and (self.oauth_token or self.jwt or
    (self.api_key and self.api_secret))] *)
Definition complete (a : attributes) : bool :=
  truthy (address a)
  && (truthy (token a) || truthy (jwt a) || (truthy (key a) && truthy (secret a))).

Definition _read_profile (a : attributes) : attributes :=
  let config := config_read (credential_path a) in
  if has_section config (profile a)
  then
    let end_point := get_option config (profile a) "end_point" in
    let end_point :=
      match end_point with
      | Some "USA" => Some "https://apiv2-us.devo.com/search/query"
      | Some "EU" => Some "https://apiv2-eu.devo.com/search/query"
      | e => e
      end in
    mk_attributes (profile a)
      (get_option config (profile a) "api_key")
      (get_option config (profile a) "api_secret")
      end_point
      (get_option config (profile a) "oauth_token")
      (jwt a) (credential_path a)
  else a.

Definition missing_credentials : string :=
  "End point and either API keys or OAuth Token must be specified or in ~/.devo_credentials".

(** [Reader.__init__]: the attributes the client is built from. *)
Definition __init__ (profile : string) (api_key api_secret end_point oauth_token jwt
    credential_path : option string) : outcome attributes :=
  let path :=
    match credential_path with
    | None => home_credentials
    | Some path => resolve_path path
    end in
  let self := mk_attributes profile api_key api_secret end_point oauth_token jwt path in
  let self := if negb (complete self) then _read_profile self else self in
  if negb (complete self) then Raise (Exception missing_credentials)
  else Return self.

End Reader.
End Reader.

(** ** The query executor of [api.py] *)

(** What [requests.post] is called with. *)
Record http_request := mk_http_request {
  url : string;
  data : string;
  headers : list (string * string);
  stream : bool
}.

(** The response object: its [text] and its [iter_lines()]. *)
Record http_response := mk_http_response {
  text : string;
  iter_lines : list string
}.

(** The fields of an [API] object and the library calls of [api.py]. *)
Class ApiEnv := {
  api_key : string;
  api_secret : string;
  end_point : string;
  (** [open(path).read()]; [None] is [OSError] *)
  read_file : string -> option string;
  (** [json.dumps] of the request body: query, from, to, mode type, limit *)
  json_dumps : string -> option Z -> option Z -> string -> option Z -> string;
  (** [str(n)] *)
  int_str : Z -> string;
  (** [hmac.new(key, msg, hashlib.sha256).hexdigest()] *)
  hmac_sha256 : string -> string -> string;
  (** [requests.post], given the posts made before; [None] is a connection
      error *)
  requests_post : list http_request -> http_request -> option http_response
}.

(** [s.endswith(suffix)] *)
Definition endswith (s suffix : string) : bool :=
  let n := String.length s in
  let m := String.length suffix in
  (m <=? n)%nat && String.eqb (substring (n - m) m s) suffix.

Module API.
Section API.
Context `{Env} `{ApiEnv}.

(** State of the executor: the posts made so far. *)
Definition A (T : Type) : Type := list http_request -> outcome T * list http_request.

(** What [_query] returns: [r.iter_lines()] or [r.text]. *)
Inductive result :=
| Lines (lines : list string)
| Text (body : string).

Definition _to_unix (d : date) (milliseconds : bool) : outcome (option Z) :=
  let finish (epoch : number) :=
    match epoch with
    | NInt z => Return (Some (if milliseconds then z * 1000 else z))
    | NFloat x =>
        if milliseconds
        then match float_mul x 1000 with
             | Some x => Return (Some (int_of_float x))
             | None => Raise OverflowError
             end
        else Return (Some (int_of_float x))
    end in
  match d with
  | DNone => Return None
  | DStr s =>
      if String.eqb s "now" then finish (NFloat now_timestamp)
      else match pd_to_datetime s with
           | Some t => finish (NFloat (Timestamp_timestamp t))
           | None => Raise ValueError
           end
  | DDatetime d => finish (NFloat (datetime_timestamp (replace_tzinfo d (Some 0))))
  | DInt z => finish (NInt z)
  | DFloat q => finish (NFloat q)
  | DTimestamp _ | DOther => Raise UnboundLocalError
  end.

Definition _make_request (query_text : string) (start stop : date) (mode : string)
    (stream : bool) (limit : option Z) : A http_response :=
  fun posts =>
    match _to_unix start false with
    | Return start =>
        match _to_unix stop false with
        | Return stop =>
            match _to_unix (DStr "now") true with
            | Return ts =>
                let ts := int_str (default 0 ts) in
                let body := json_dumps query_text start stop mode limit in
                let msg := api_key ++ body ++ ts in
                let sig := hmac_sha256 api_secret msg in
                let headers := [("Content-Type", "application/json");
                                ("x-logtrust-apikey", api_key);
                                ("x-logtrust-sign", sig);
                                ("x-logtrust-timestamp", ts)] in
                let post := mk_http_request end_point body headers stream in
                match requests_post posts post with
                | Some r => (Return r, (posts ++ [post])%list)
                | None => (Raise (TransportError "post"), (posts ++ [post])%list)
                end
            | Raise e => (Raise e, posts)
            | OutOfFuel => (OutOfFuel, posts)
            end
        | Raise e => (Raise e, posts)
        | OutOfFuel => (OutOfFuel, posts)
        end
    | Raise e => (Raise e, posts)
    | OutOfFuel => (OutOfFuel, posts)
    end.

Definition _query (linq_query : string) (start stop : date) (mode : string)
    (stream : bool) (limit : option Z) : A result :=
  fun posts =>
    match (if endswith linq_query ".linq" then read_file linq_query
           else Some linq_query) with
    | None => (Raise (Exception "OSError"), posts)
    | Some query_text =>
        let stream := if is_None stop then true else stream in
        match _make_request query_text start stop mode stream limit posts with
        | (Return r, posts) =>
            if stream then (Return (Lines (iter_lines r)), posts)
            else (Return (Text (text r)), posts)
        | (Raise e, posts) => (Raise e, posts)
        | (OutOfFuel, posts) => (OutOfFuel, posts)
        end
    end.

(** *** The rest of the pipeline of [api.py] *)

Definition aret {T} (x : T) : A T := fun posts => (Return x, posts).
Definition araise {T} (e : exn) : A T := fun posts => (Raise e, posts).
Definition alift {T} (o : outcome T) : A T := fun posts => (o, posts).
Definition abind {T U} (m : A T) (k : T -> A U) : A U :=
  fun posts =>
    match m posts with
    | (Return x, posts') => k x posts'
    | (Raise e, posts') => (Raise e, posts')
    | (OutOfFuel, posts') => (OutOfFuel, posts')
    end.

(** The [timestamp] entry of the map: always a [datetime]. *)
Definition ts_func : Reader.converter :=
  fun t => Reader.of_option ValueError (VDatetime <$> strptime (str_strip t)).

(** [self._map]: the entries are decorated, the fallback is the bare [str]. *)
Definition _make_type_map : Reader.defaultdict :=
  Reader.mk_defaultdict Reader.str (Reader._null_decorator <$> Reader.funcs ts_func).

(** [x == 0] on a decoded JSON value; [False == 0] holds in Python. *)
Definition equals_int (x : json) (n : Z) : bool :=
  match x with
  | JNum z => z =? n
  | JBool b => (if b then 1 else 0) =? n
  | _ => false
  end.

Definition _get_types (linq_query : string) (start : date)
    : A (gmap string Reader.converter) :=
  abind (alift (_to_unix start false)) (fun start =>
  match start with
  | None => araise TypeError
  | Some start =>
      let stop := start + 1 in
      abind (_query linq_query (DInt start) (DInt stop) "json/compact" false (Some 1))
        (fun response =>
           match response with
           | Lines _ => araise TypeError
           | Text body =>
               match json_loads body with
               | None => araise ValueError
               | Some data =>
                   abind (alift (Reader.subscript data "status")) (fun status =>
                   if negb (equals_int status 0) then araise (AssertionError "Query Error")
                   else
                     abind (alift (Reader.subscript data "object")) (fun object =>
                     abind (alift (Reader.subscript object "m")) (fun col_data =>
                     match col_data with
                     | JObj col_data =>
                         alift (Reader.type_dict_of _make_type_map col_data ∅)
                     | _ => araise AttributeError
                     end)))
               end
           end)
  end).

(** [json.loads(first)['status'] == 500], any failure on the way being
    swallowed by the bare [except]. *)
Definition query_error (first : string) : bool :=
  match json_loads first with
  | Some (JObj members) =>
      match Reader.jget "status" members with
      | Some status => equals_int status 500
      | None => false
      end
  | _ => false
  end.

Definition _decode_results (r : result) : gen string :=
  match r with
  | Lines [] => GRaise RuntimeError
  | Lines (first :: rest) =>
      if query_error first then GRaise (AssertionError "Query Error")
      else
        match Reader.decode first with
        | Return l => GYield l (gen_for Reader.decode (gen_of_list rest))
        | Raise e => GRaise e
        | OutOfFuel => GRaise RuntimeError
        end
  | Text "" => GRaise RuntimeError
  | Text _ => GRaise AttributeError
  end.

Definition _stream (linq_query : string) (start stop : date)
    : A (list string * gen (list value)) :=
  abind (_get_types linq_query start) (fun type_dict =>
  abind (_query linq_query start stop "csv" true None) (fun result =>
  let reader := Reader.csv_reader_gen (_decode_results result) in
  match next reader with
  | Return (cols, reader) =>
      if negb (length cols =? size type_dict)%nat
      then araise (AssertionError Reader.duplicate_columns)
      else
        abind (alift (Reader.lookup_types type_dict cols)) (fun type_list =>
        aret (cols, gen_for (Reader.convert_row type_list) reader))
  | Raise StopIteration => araise RuntimeError
  | Raise e => araise e
  | OutOfFuel => alift OutOfFuel
  end)).

Definition invalid_output : string :=
  "output must be in ('dict', 'list', 'namedtuple', 'dataframe')".

Definition query (linq_query : string) (start stop : date) (output : string)
    : A Reader.table :=
  if negb (bool_decide (output ∈ Reader.valid_outputs))
  then araise (AssertionError invalid_output)
  else if String.eqb output "dataframe" && is_None stop
  then araise (AssertionError Reader.continuous_dataframe)
  else
    abind (_stream linq_query start stop) (fun results =>
    alift (Reader.project output results.2 results.1)).

Definition sample_query (linq_query : string) (p : Q) : string :=
  linq_query ++ " where simplify(float8(rand())) < " ++ float_str p ++ " ".

(** The [while True] of the older [randomSample]. *)
Fixpoint sample_loop (fuel : nat) (sample_query : string) (start stop : date)
    (sample_size : Z) : A Reader.table :=
  match fuel with
  | O => alift OutOfFuel
  | S fuel =>
      abind (query sample_query start stop "dataframe") (fun t =>
      match t with
      | Reader.OfDataFrame df =>
          if sample_size <=? Reader.shape0 df
          then
            if sample_size <? 0 then araise ValueError
            else
              match Reader.df_sample (Z.to_nat sample_size) df with
              | Return s => aret (Reader.OfDataFrame s)
              | Raise e => araise e
              | OutOfFuel => alift OutOfFuel
              end
          else sample_loop fuel sample_query start stop sample_size
      | _ => araise AttributeError
      end)
  end.

(** [randomSample] of [api.py], on an [int] sample size. *)
Definition randomSample (fuel : nat) (linq_query : string) (start stop : date)
    (sample_size : Z) : A Reader.table :=
  abind (query (Reader.size_query linq_query) start stop "list") (fun r =>
  match r with
  | Reader.OfLists r =>
      match next r with
      | Return (row, _) =>
          abind (alift (Reader.first_cell row)) (fun table_size =>
          abind (alift (Reader.as_number table_size)) (fun n =>
          if Qeq_bool n 0 then araise ZeroDivisionError
          else
            let p := (inject_Z sample_size / n)%Q in
            sample_loop fuel (sample_query linq_query p) start stop sample_size))
      | Raise e => araise e
      | OutOfFuel => alift OutOfFuel
      end
  | _ => araise TypeError
  end).

End API.
End API.

(** ** A small runtime to run the model on

    Concrete stand-ins for the library functions, and a service that answers
    the i-th request with the i-th entry of a script. *)

Module Toy.

Fixpoint split_on (sep : ascii) (s : string) : list string :=
  match s with
  | EmptyString => [EmptyString]
  | String c s' =>
      if Ascii.eqb c sep then EmptyString :: split_on sep s'
      else match split_on sep s' with
           | [] => [String c EmptyString]
           | w :: ws => String c w :: ws
           end
  end.

(** A probe body [#a:int8,b:str] stands for the JSON document whose status is
    0 and whose columns are [a] of type [int8] and [b] of type [str]; a body
    [!] stands for a document whose status is 500. Nothing else parses. *)
Definition column (s : string) : string * json :=
  match split_on ":" s with
  | [c; t] => (c, JObj [("type", JStr t)])
  | _ => (s, JObj [])
  end.

Definition loads (s : string) : option json :=
  match s with
  | String "#" cols =>
      Some (JObj [("status", JNum 0);
                  ("object", JObj [("m", JObj (map column (split_on "," cols)))])])
  | String "!" _ => Some (JObj [("status", JNum 500)])
  | _ => None
  end.

Definition parse_int (s : string) : option Z :=
  Z.of_int <$> NilEmpty.int_of_string s.

(** [x] cut to six decimals. *)
Definition cut6 (x : Q) : Q := (Qnum x * 1000000 / Z.pos (Qden x)) # 1000000.

(** The square root to six decimals. *)
Definition sqrt6 (x : Q) : Q :=
  Z.sqrt (Qnum x * 1000000000000 / Z.pos (Qden x)) # 1000000.

(** The upper tail of the standard normal law at [t >= 0], by the rational
    approximation 26.2.18 of Abramowitz and Stegun (error below 0.00025). *)
Definition upper_tail (t : Q) : Q :=
  let s := cut6 (1 + (196854 # 1000000) * t + (115194 # 1000000) * t * t
                 + (344 # 1000000) * t * t * t + (19527 # 1000000) * t * t * t * t)%Q in
  let s2 := cut6 (s * s) in
  cut6 ((1 # 2) / (s2 * s2)).

(** A zero scale has no tail; 0 stands for the NaN of the library, which is
    not above any threshold either. *)
Definition tail (x loc scale : Q) : Q :=
  if Qle_bool scale 0 then 0%Q
  else
    let z := cut6 ((x - loc) / scale) in
    if Qle_bool 0 z then upper_tail z else (1 - upper_tail (- z))%Q.

(** A column of numbers with a missing cell or a float in it is stored as
    floats, the missing cells as NaN; any other column is kept as it is. *)
Definition to_float64 (v : value) : value :=
  match v with
  | VInt z => VFloat (round_double (inject_Z z))
  | VNone => VNaN
  | v => v
  end.

Definition convert_objects (column : list value) : list value :=
  let number v := match v with VInt _ | VFloat _ => true | _ => false end in
  let missing v := match v with VNone | VNaN => true | _ => false end in
  let float v := match v with VFloat _ => true | _ => false end in
  if forallb (fun v => number v || missing v) column
     && existsb number column
     && existsb (fun v => missing v || float v) column
  then map to_float64 column
  else column.

(** The last [k] of [n] positions, last first. *)
Definition last_first (n k : nat) : list nat := reverse (seq (n - k) k).

Definition env (script : list response) : Env := {|
  json_loads := loads;
  utf8_decode := Some;
  str_strip := id;
  csv_reader := map (split_on ",");
  py_int := parse_int;
  py_float := fun _ => None;
  strptime := fun _ => None;
  isoformat := fun _ => "";
  local_timestamp := fun d => round_double (wall_us d # 1000000);
  pd_to_datetime := fun _ => None;
  now_timestamp := 0;
  float_str := fun _ => "p";
  np_sqrt := sqrt6;
  norm_sf := tail;
  sample_positions := last_first;
  maybe_convert_objects := convert_objects;
  valid_field_names := fun _ => true;
  client_query := fun before _ => nth (length before) script (RFail (TransportError "end of script"))
|}.

Definition w0 : world := mk_world [] [].

(** An [API] object whose posts are all answered with the same two lines. *)
Definition api : ApiEnv := {|
  api_key := "key";
  api_secret := "secret";
  end_point := "https://api-us.logtrust.com/search/query";
  read_file := fun _ => None;
  json_dumps := fun query _ _ _ _ => query;
  int_str := fun _ => "0";
  hmac_sha256 := fun _ msg => msg;
  requests_post := fun _ _ => Some (mk_http_response "a,b 1,2" ["a,b"; "1,2"])
|}.

End Toy.

(** * Properties *)

(** ** Type converters *)

Section Converters.
Context `{Env}.

Definition known_tags : list string :=
  ["timestamp"; "str"; "int8"; "int4"; "float8"; "float4"; "bool"].

Lemma null_decorator_empty (f : Reader.converter) :
  Reader._null_decorator f "" = Return VNone.
Proof. reflexivity. Qed.

Lemma funcs_unknown (ts_func : Reader.converter) (tag : string) :
  tag ∉ known_tags -> Reader.funcs ts_func !! tag = None.
Proof.
  intros Hn. unfold Reader.funcs.
  repeat (rewrite lookup_insert_ne;
          [| intros <-; apply Hn; unfold known_tags; set_solver]).
  apply lookup_empty.
Qed.

Lemma make_type_map_inv (ts_format : string) (type_map : Reader.defaultdict) :
  Reader._make_type_map ts_format = Return type_map ->
  exists ts_func,
    type_map = Reader.mk_defaultdict (Reader._null_decorator Reader.str)
                 (Reader._null_decorator <$> Reader.funcs ts_func).
Proof.
  unfold Reader._make_type_map.
  destruct (Reader.make_ts_func ts_format) as [ts_func | e |]; intros Hm;
    inversion Hm; subst; eauto.
Qed.

(** C4: every converter of the type map, the one an unknown type tag falls
    back to included, sends the empty string to [None]; an unknown tag raises
    nothing and gets the converter of type [str], which returns any other
    string unchanged. *)
Theorem type_map_nulls_and_default (ts_format : string)
    (type_map : Reader.defaultdict) (tag : string) :
  Reader._make_type_map ts_format = Return type_map ->
  Reader.dd_get type_map tag "" = Return VNone
  /\ (tag ∉ known_tags ->
      forall v : string,
        Reader.dd_get type_map tag v = Reader.dd_get type_map "str" v
        /\ Reader.dd_get type_map tag v
           = Return (if String.eqb v "" then VNone else VStr v)).
Proof.
  intros Hm. destruct (make_type_map_inv _ _ Hm) as [ts_func ->].
  unfold Reader.dd_get; simpl. split.
  - rewrite lookup_fmap.
    destruct (Reader.funcs ts_func !! tag); simpl; apply null_decorator_empty.
  - intros Hn v. rewrite !lookup_fmap, (funcs_unknown _ _ Hn). simpl.
    split.
    + unfold Reader.funcs.
      rewrite lookup_insert_ne by discriminate.
      rewrite lookup_insert_ne by discriminate.
      rewrite lookup_insert_ne by discriminate.
      rewrite lookup_insert_ne by discriminate.
      rewrite lookup_insert_ne by discriminate.
      rewrite lookup_insert_eq. reflexivity.
    + unfold Reader._null_decorator, Reader.str.
      destruct (String.eqb v ""); reflexivity.
Qed.

(** X13: on a cell that is not empty the converter is the one of the type tag. *)
Lemma type_map_typed (ts_format : string) (type_map : Reader.defaultdict) (v : string) :
  Reader._make_type_map ts_format = Return type_map ->
  String.eqb v "" = false ->
  Reader.dd_get type_map "int8" v = Reader.int v
  /\ Reader.dd_get type_map "int4" v = Reader.int v
  /\ Reader.dd_get type_map "float8" v = Reader.float v
  /\ Reader.dd_get type_map "float4" v = Reader.float v
  /\ Reader.dd_get type_map "bool" v = Return (VBool (String.eqb v "true"))
  /\ Reader.dd_get type_map "str" v = Return (VStr v).
Proof.
  intros Hm Hv. destruct (make_type_map_inv _ _ Hm) as [ts_func ->].
  unfold Reader.dd_get, Reader.funcs; simpl.
  repeat split; rewrite lookup_fmap;
    repeat (rewrite lookup_insert_ne by discriminate);
    rewrite lookup_insert_eq; simpl; unfold Reader._null_decorator;
    rewrite Hv; reflexivity.
Qed.

End Converters.

Lemma type_map_nulls_and_default_witness :
  exists type_map,
    @Reader._make_type_map (Toy.env []) "iso" = Return type_map
    /\ @Reader.dd_get type_map "geolocation" "" = Return VNone.
Proof.
  eexists. split.
  - reflexivity.
  - exact (proj1 (@type_map_nulls_and_default (Toy.env []) "iso" _ "geolocation"
                    eq_refl)).
Defined.

(** ** Validation before any request *)

Section Validation.
Context `{Env}.

(** C6: an output shape outside dict, list, namedtuple and dataframe, and the
    dataframe shape asked of a query without stop, are refused with an
    exception and the world is left as it was: no request has been sent. *)
Theorem query_rejects_before_any_request (linq_query : string) (start stop : date)
    (output ts_format : string) (w : world) :
  output ∉ Reader.valid_outputs \/ (output = "dataframe" /\ stop = DNone) ->
  exists msg,
    Reader.query linq_query start stop output ts_format w = (Raise (Exception msg), w).
Proof.
  intros [Hout | [-> ->]]; unfold Reader.query.
  - rewrite bool_decide_eq_false_2 by assumption. simpl. eauto.
  - rewrite bool_decide_eq_true_2 by (unfold Reader.valid_outputs; set_solver).
    simpl. eauto.
Qed.

(** C7: a sample size that is not positive, or that is no [int], is refused
    with the validation exception and no request has been sent. *)
Theorem randomSample_rejects_before_any_request (fuel : nat) (linq_query : string)
    (start stop : date) (sample_size : number) (w : world) :
  (Q_of_number sample_size <= 0)%Q \/ Reader.isinstance_int sample_size = false ->
  Reader.randomSample fuel linq_query start stop sample_size w
  = (Raise (Exception Reader.positive_int), w).
Proof.
  intros Hbad. unfold Reader.randomSample.
  assert (Reader.less_than_one sample_size
          || negb (Reader.isinstance_int sample_size) = true) as ->; [| reflexivity].
  destruct sample_size as [z | q]; simpl.
  - destruct Hbad as [Hle | Hint]; [| discriminate].
    unfold Qle in Hle; simpl in Hle.
    rewrite orb_false_r. apply Z.ltb_lt. lia.
  - apply orb_true_r.
Qed.

End Validation.

Lemma query_rejects_before_any_request_witness :
  exists msg,
    @Reader.query (Toy.env []) "from siem.logtrust.web.activity" (DStr "now") DNone
      "dataframe" "datetime" Toy.w0
    = (Raise (Exception msg), Toy.w0).
Proof.
  apply (@query_rejects_before_any_request (Toy.env [])).
  right. split; reflexivity.
Defined.

Lemma randomSample_rejects_before_any_request_witness :
  @Reader.randomSample (Toy.env []) 10 "from demo.ecommerce.data" (DInt 0) (DInt 60)
    (NInt (-5)) Toy.w0
  = (Raise (Exception Reader.positive_int), Toy.w0).
Proof.
  apply (@randomSample_rejects_before_any_request (Toy.env [])).
  left. unfold Qle; simpl. lia.
Defined.

(** The other inputs of the spec's examples: 0 and a fraction. *)
Example randomSample_rejects_zero_and_fraction :
  @Reader.randomSample (Toy.env []) 10 "q" (DInt 0) (DInt 60) (NInt 0) Toy.w0
  = (Raise (Exception Reader.positive_int), Toy.w0)
  /\ @Reader.randomSample (Toy.env []) 10 "q" (DInt 0) (DInt 60) (NFloat (5 # 2)) Toy.w0
     = (Raise (Exception Reader.positive_int), Toy.w0).
Proof. split; reflexivity. Qed.

(** ** Time normalisation *)

Section ToUnix.
Context `{Env}.

Lemma wall_us_replace_tzinfo (d : datetime) (tz : option Z) :
  wall_us (replace_tzinfo d tz) = wall_us d.
Proof. reflexivity. Qed.

(** [int(x)] cuts toward zero: the part cut off is smaller than one and has
    the sign of [x]. *)
Lemma int_of_float_truncates (a : Z) (b : positive) :
  let r := int_of_float (a # b) in
  a = r * Z.pos b + Z.rem a (Z.pos b)
  /\ Z.abs (Z.rem a (Z.pos b)) < Z.pos b
  /\ 0 <= Z.rem a (Z.pos b) * a.
Proof.
  unfold int_of_float; simpl. repeat split.
  - rewrite Z.mul_comm. apply Z.quot_rem'.
  - pose proof (Z.rem_bound_abs a (Z.pos b)). lia.
  - apply Z.rem_sign_mul. lia.
Qed.

(** [int(x)] depends on the value of [x], not on how the fraction is
    written. *)
Lemma int_of_float_Qeq (p q : Q) : (p == q)%Q -> int_of_float p = int_of_float q.
Proof.
  destruct p as [a b], q as [c d]. unfold Qeq, int_of_float; simpl. intros Heq.
  rewrite <- (Z.quot_mul_cancel_r a (Z.pos b) (Z.pos d)) by lia.
  rewrite Heq, (Z.mul_comm (Z.pos b)).
  by rewrite Z.quot_mul_cancel_r by lia.
Qed.

Lemma binade_le (a b E : Z) :
  0 < a -> 0 < b -> a < b * 2 ^ (E + 1) -> binade a b <= E.
Proof.
  intros Ha Hb Hlt. unfold binade.
  set (l := Z.log2 a - Z.log2 b).
  assert (0 <= E + 1) as HE.
  { destruct (Z.le_gt_cases 0 (E + 1)) as [| Hneg]; [done |].
    rewrite Z.pow_neg_r in Hlt by lia. lia. }
  assert (l <= E + 1) as Hl.
  { assert (Z.log2 a <= Z.log2 (b * 2 ^ (E + 1))) as Hlog by (apply Z.log2_le_mono; lia).
    rewrite Z.log2_mul_pow2 in Hlog by lia. unfold l. lia. }
  destruct (if 0 <=? l then _ else _) eqn:Hc; [| lia].
  destruct (Z.eq_dec l (E + 1)) as [Heq |]; [| lia].
  exfalso. assert ((0 <=? l) = true) as Hpos by (apply Z.leb_le; lia).
  rewrite Hpos in Hc. apply Z.leb_le in Hc. rewrite Heq in Hc. lia.
Qed.

Lemma round_half_even_cases (a b : Z) :
  (round_half_even a b = a / b /\ 2 * (a mod b) <= b)
  \/ (round_half_even a b = a / b + 1 /\ b <= 2 * (a mod b)).
Proof.
  unfold round_half_even.
  destruct (2 * (a mod b) <? b) eqn:Hlow; [left; split; [done | lia] |].
  destruct (b <? 2 * (a mod b)) eqn:Hhigh; [right; split; [done | lia] |].
  destruct (Z.even (a / b)); [left | right]; split; try done; lia.
Qed.

(** [a / D] rounded to a multiple of [1 / K] lies between the whole part of
    [a / D] and the next integer, and below that one when [1 / K] is less
    than [2 / D]. *)
Lemma round_scaled (a D K : Z) :
  0 <= a -> 0 < D -> 0 < K ->
  let m := round_half_even (a * K) D in
  a / D * K <= m <= (a / D + 1) * K
  /\ (D < 2 * K -> m < (a / D + 1) * K).
Proof.
  intros Ha HD HK m.
  pose proof (Z.div_mod a D ltac:(lia)) as Hs.
  pose proof (Z.mod_pos_bound a D HD) as Hf.
  pose proof (Z.div_mod (a * K) D ltac:(lia)) as Hq.
  pose proof (Z.mod_pos_bound (a * K) D HD) as Hr.
  assert (a / D * K <= a * K / D) as Hlow by (apply Z.div_le_lower_bound; nia).
  assert (a * K / D < (a / D + 1) * K) as Hhigh by (apply Z.div_lt_upper_bound; nia).
  destruct (round_half_even_cases (a * K) D) as [[Hm _] | [Hm Hup]];
    subst m; rewrite Hm.
  - split; [lia | intros; lia].
  - split; [lia |]. intros HDK.
    destruct (Z.eq_dec (a * K / D + 1) ((a / D + 1) * K)) as [Heq |]; [| lia].
    exfalso. nia.
Qed.

(** The float of [a] microseconds, cut to whole seconds. Below [2 ^ 52]
    seconds it is the whole second of [a] or the next one away from zero;
    below [2 ^ 34] seconds, where two doubles are less than two microseconds
    apart, it is the whole second of [a]. *)
Lemma float_epoch_seconds (a : Z) :
  Z.abs a < 4503599627370496 * 1000000 ->
  let r := int_of_float (round_double (a # 1000000)) in
  (r = Z.quot a 1000000 \/ r = Z.quot a 1000000 + Z.sgn a)
  /\ (Z.abs a < 17179869184 * 1000000 -> r = Z.quot a 1000000).
Proof.
  intros Hwide r. subst r. unfold round_double. cbn [Qnum Qden].
  destruct (Z.abs a =? 0) eqn:Hzero.
  { apply Z.eqb_eq in Hzero. assert (a = 0) as -> by lia. split; [left |]; reflexivity. }
  apply Z.eqb_neq in Hzero.
  set (e := Z.max (binade (Z.abs a) 1000000 - 52) (-1074)).
  assert (binade (Z.abs a) 1000000 <= 51) as Hb.
  { apply binade_le; [lia | lia |]. change (2 ^ (51 + 1)) with 4503599627370496. lia. }
  assert ((0 <=? e) = false) as -> by (apply Z.leb_gt; lia).
  set (K := 2 ^ (- e)).
  assert (2 <= K) as HK.
  { pose proof (Z.pow_le_mono_r 2 1 (- e) ltac:(lia) ltac:(lia)) as Hp.
    change (2 ^ 1) with 2 in Hp. exact Hp. }
  set (m := round_half_even (Z.abs a * K) 1000000).
  rewrite (int_of_float_Qeq _ _ (Qred_correct _)).
  unfold int_of_float. cbn [Qnum Qden]. rewrite Z2Pos.id by lia.
  destruct (round_scaled (Z.abs a) 1000000 K ltac:(lia) ltac:(lia) ltac:(lia))
    as [[Hlow Hhigh] Hfine]. fold m in Hlow, Hhigh, Hfine.
  set (s := Z.abs a / 1000000) in *.
  assert (0 <= s) as Hs by (apply Z.div_pos; lia).
  assert (0 <= m) as Hm by nia.
  assert (s <= m / K <= s + 1) as Hcut.
  { split; [apply Z.div_le_lower_bound; nia | apply Z.div_le_upper_bound; nia]. }
  assert (Z.quot (Z.sgn a * m) K = Z.sgn a * (m / K)) as Hr.
  { destruct (Z.lt_total a 0) as [Hneg | [-> | Hpos]]; [| done |].
    - rewrite (Z.sgn_neg a Hneg).
      replace (-1 * m) with (- m) by lia. rewrite Z.quot_opp_l by lia.
      rewrite Z.quot_div_nonneg by lia. lia.
    - rewrite (Z.sgn_pos a Hpos), !Z.mul_1_l. apply Z.quot_div_nonneg; lia. }
  assert (Z.quot a 1000000 = Z.sgn a * s) as Hq.
  { destruct (Z.lt_total a 0) as [Hneg | [-> | Hpos]]; [| done |].
    - rewrite (Z.sgn_neg a Hneg). unfold s. rewrite (Z.abs_neq a) by lia.
      rewrite <- Z.quot_div_nonneg by lia. rewrite Z.quot_opp_l by lia. lia.
    - rewrite (Z.sgn_pos a Hpos). unfold s. rewrite (Z.abs_eq a) by lia.
      rewrite Z.quot_div_nonneg by lia. lia. }
  rewrite Hr, Hq. split.
  - destruct (Z.eq_dec (m / K) s) as [-> |]; [by left | right].
    replace (m / K) with (s + 1) by lia. lia.
  - intros Hnarrow.
    assert (binade (Z.abs a) 1000000 <= 33) as Hb'.
    { apply binade_le; [lia | lia |]. change (2 ^ (33 + 1)) with 17179869184. lia. }
    assert (524288 <= K) as HK'.
    { pose proof (Z.pow_le_mono_r 2 19 (- e) ltac:(lia) ltac:(lia)) as Hp.
      change (2 ^ 19) with 524288 in Hp. exact Hp. }
    specialize (Hfine ltac:(lia)).
    assert (m / K < s + 1) by (apply Z.div_lt_upper_bound; nia).
    f_equal. lia.
Qed.

Lemma round_half_even_exact (a b : Z) :
  0 < b -> a mod b = 0 -> round_half_even a b = a / b.
Proof.
  intros Hb Hm. destruct (round_half_even_cases a b) as [[-> _] | [_ Hup]]; [done | lia].
Qed.

(** Rounding to a multiple of [1 / (2 * K)] keeps a fraction between the same
    two halves. *)
Lemma round_half_even_between (a D K L U : Z) :
  0 <= a -> 0 < D -> 0 < K -> L * D <= 2 * a <= U * D ->
  L * K <= round_half_even (a * (2 * K)) D <= U * K.
Proof.
  intros Ha HD HK [HL HU].
  replace (a * (2 * K)) with (2 * a * K) by lia.
  destruct (round_scaled (2 * a) D K ltac:(lia) HD HK) as [[Hlow Hhigh] _].
  assert (L <= 2 * a / D) as HLd by (apply Z.div_le_lower_bound; lia).
  split; [nia |].
  destruct (Z.eq_dec (2 * a) (U * D)) as [Heq | Hne].
  - rewrite round_half_even_exact; [| done |].
    + rewrite Heq. replace (U * D * K) with (U * K * D) by lia.
      rewrite Z.div_mul by lia. lia.
    + rewrite Heq. replace (U * D * K) with (U * K * D) by lia.
      apply Z.mod_mul. lia.
  - assert (2 * a / D < U) by (apply Z.div_lt_upper_bound; lia). nia.
Qed.

(** Below [2 ^ 52] a double can be any half: rounding to the nearest double
    keeps a float between the same two halves. *)
Lemma round_double_between (x : Q) (L U : Z) :
  0 <= Qnum x -> Qnum x < Z.pos (Qden x) * 4503599627370496 ->
  L * Z.pos (Qden x) <= 2 * Qnum x <= U * Z.pos (Qden x) ->
  0 <= Qnum (round_double x)
  /\ L * Z.pos (Qden (round_double x)) <= 2 * Qnum (round_double x)
     <= U * Z.pos (Qden (round_double x)).
Proof.
  destruct x as [a b]; cbn [Qnum Qden]. intros Ha Hlt HLU.
  unfold round_double; cbn [Qnum Qden].
  rewrite (Z.abs_eq a) by lia.
  destruct (a =? 0) eqn:Hz.
  { apply Z.eqb_eq in Hz; subst. cbn [Qnum Qden]. lia. }
  apply Z.eqb_neq in Hz.
  set (e := Z.max (binade a (Z.pos b) - 52) (-1074)).
  assert (binade a (Z.pos b) <= 51) as Hb.
  { apply binade_le; [lia | lia |]. change (2 ^ (51 + 1)) with 4503599627370496. lia. }
  assert ((0 <=? e) = false) as -> by (apply Z.leb_gt; lia).
  rewrite Z.sgn_pos, Z.mul_1_l by lia.
  set (K := 2 ^ (- e - 1)).
  assert (0 < K) as HK by (apply Z.pow_pos_nonneg; lia).
  assert (2 ^ (- e) = 2 * K) as HK2.
  { unfold K. rewrite <- Z.pow_succ_r by lia. f_equal. lia. }
  rewrite HK2.
  set (m := round_half_even (a * (2 * K)) (Z.pos b)).
  pose proof (round_half_even_between a (Z.pos b) K L U ltac:(lia) ltac:(lia) HK HLU) as Hm.
  pose proof (round_half_even_between a (Z.pos b) K 0 (2 * a + 1) ltac:(lia) ltac:(lia) HK
                ltac:(nia)) as Hm0.
  fold m in Hm, Hm0.
  pose proof (Qred_correct (m # Z.to_pos (2 * K))) as Hred.
  unfold Qeq in Hred. cbn [Qnum Qden] in Hred. rewrite Z2Pos.id in Hred by lia.
  set (r := Qred (m # Z.to_pos (2 * K))) in *.
  assert (0 < Z.pos (Qden r)) as Hden by lia.
  repeat split; nia.
Qed.

(** So does rounding to six decimals. *)
Lemma round6_between (x : Q) (L U : Z) :
  0 <= Qnum x -> Qnum x < Z.pos (Qden x) * 1099511627776 ->
  0 <= L ->
  L * Z.pos (Qden x) <= 2 * Qnum x <= U * Z.pos (Qden x) ->
  0 <= Qnum (round6 x)
  /\ L * Z.pos (Qden (round6 x)) <= 2 * Qnum (round6 x) <= U * Z.pos (Qden (round6 x)).
Proof.
  destruct x as [a b]; cbn [Qnum Qden]. intros Ha Hlt HL HLU.
  unfold round6; cbn [Qnum Qden].
  set (m := round_half_even (a * 1000000) (Z.pos b)).
  pose proof (round_half_even_between a (Z.pos b) 500000 L U ltac:(lia) ltac:(lia)
                ltac:(lia) HLU) as Hm.
  pose proof (round_half_even_between a (Z.pos b) 500000 0 (2 * 1099511627776)
                ltac:(lia) ltac:(lia) ltac:(lia) ltac:(lia)) as Hm0.
  change (2 * 500000) with 1000000 in Hm, Hm0. fold m in Hm, Hm0.
  apply round_double_between; cbn [Qnum Qden]; lia.
Qed.

(** A count of nanoseconds below [2 ^ 63] as a float: off by 1024 at most. *)
Lemma float_of_int_near (v : Z) :
  0 <= v < 9223372036854775808 ->
  0 <= Qnum (round_double (inject_Z v))
  /\ (v - 1024) * Z.pos (Qden (round_double (inject_Z v)))
     <= Qnum (round_double (inject_Z v))
     <= (v + 1024) * Z.pos (Qden (round_double (inject_Z v))).
Proof.
  intros Hv.
  unfold round_double, inject_Z; cbn [Qnum Qden].
  rewrite (Z.abs_eq v) by lia.
  destruct (v =? 0) eqn:Hz; [cbn [Qnum Qden]; lia |].
  apply Z.eqb_neq in Hz.
  set (e := Z.max (binade v 1 - 52) (-1074)).
  assert (binade v 1 <= 62) as Hb.
  { apply binade_le; [lia | lia |]. change (2 ^ (62 + 1)) with 9223372036854775808. lia. }
  rewrite Z.sgn_pos, Z.mul_1_l by lia.
  destruct (0 <=? e) eqn:He.
  - apply Z.leb_le in He. cbn [Qnum Qden]. rewrite Z.mul_1_l.
    set (P := 2 ^ e).
    assert (0 < P <= 1024) as HP.
    { split; [apply Z.pow_pos_nonneg; lia |].
      pose proof (Z.pow_le_mono_r 2 e 10 ltac:(lia) ltac:(lia)) as Hp.
      change (2 ^ 10) with 1024 in Hp. exact Hp. }
    pose proof (Z.div_mod v P ltac:(lia)) as Hdm.
    pose proof (Z.mod_pos_bound v P ltac:(lia)) as Hmod.
    assert (0 <= v / P) as Hq by (apply Z.div_pos; lia).
    assert (0 <= v / P * P) as Hqp by nia.
    destruct (round_half_even_cases v P) as [[-> _] | [-> _]]; lia.
  - apply Z.leb_gt in He.
    set (K := 2 ^ (- e)).
    assert (0 < K) as HK by (apply Z.pow_pos_nonneg; lia).
    rewrite round_half_even_exact by (try apply Z.mod_1_r; lia).
    rewrite Z.div_1_r, ?Z.mul_1_l.
    pose proof (Qred_correct ((v * K) # Z.to_pos K)) as Hred.
    unfold Qeq in Hred. cbn [Qnum Qden] in Hred. rewrite Z2Pos.id in Hred by lia.
    set (r := Qred ((v * K) # Z.to_pos K)) in *.
    assert (0 < Z.pos (Qden r)) as Hden by lia.
    assert (Qnum r = v * Z.pos (Qden r)) as -> by nia.
    nia.
Qed.

Lemma Qdiv_parts (x : Q) (p : positive) :
  Qnum (x / inject_Z (Z.pos p)) = Qnum x * 1
  /\ Qden (x / inject_Z (Z.pos p)) = (Qden x * p)%positive.
Proof. destruct x as [a b]. split; reflexivity. Qed.

(** A [Timestamp] of [v] nanoseconds, from 1970 on: the float of its
    seconds, cut, is within a second of the whole second of [v]. *)
Lemma timestamp_seconds_near (v : Z) :
  0 <= v < 9223372036854775808 ->
  let r := int_of_float
             (round6 (round_double (round_double (inject_Z v) / 1000000000))) in
  v / 1000000000 - 1 <= r <= v / 1000000000 + 1.
Proof.
  intros Hv r. subst r.
  destruct (float_of_int_near v Hv) as (H0 & Hlow & Hhigh).
  set (x1 := round_double (inject_Z v)) in *.
  pose proof (Z.div_mod v 1000000000 ltac:(lia)) as Hs.
  pose proof (Z.mod_pos_bound v 1000000000 ltac:(lia)) as Hf.
  set (s := v / 1000000000) in *.
  assert (0 <= s) as Hs0 by (apply Z.div_pos; lia).
  assert (s < 9223372037) as Hs1 by (apply Z.div_lt_upper_bound; lia).
  set (L := Z.max 0 (2 * s - 1)). set (U := 2 * s + 3).
  destruct (Qdiv_parts x1 1000000000) as [Hn Hd].
  change (inject_Z 1000000000) with (1000000000 : Q) in Hn, Hd.
  assert (0 < Z.pos (Qden x1)) as Hden1 by lia.
  destruct (round_double_between (x1 / 1000000000) L U) as (Ha & Hb & Hc).
  { rewrite Hn. lia. }
  { rewrite Hn, Hd, Pos2Z.inj_mul. nia. }
  { rewrite Hn, Hd, Pos2Z.inj_mul. unfold L, U. nia. }
  set (x2 := round_double (x1 / 1000000000)) in *.
  assert (0 < Z.pos (Qden x2)) as Hden2 by lia.
  destruct (round6_between x2 L U) as (Ha' & Hb' & Hc'); try done.
  { nia. }
  { unfold L; lia. }
  set (x3 := round6 x2) in *.
  assert (0 < Z.pos (Qden x3)) as Hden3 by lia.
  unfold int_of_float. rewrite Z.quot_div_nonneg by lia.
  split.
  - apply Z.div_le_lower_bound; [lia |]. unfold L in Hb'. nia.
  - assert (Qnum x3 / Z.pos (Qden x3) < s + 2); [| lia].
    apply Z.div_lt_upper_bound; [lia |]. unfold U in Hc'. nia.
Qed.

(** A [Timestamp] on a whole second, from 1970 on and below [2 ^ 62]
    nanoseconds: every float on the way is exact. *)
Lemma timestamp_whole_second (s : Z) :
  0 <= s * 1000000000 < 4611686018427387904 ->
  int_of_float
    (round6 (round_double (round_double (inject_Z (s * 1000000000)) / 1000000000)))
  = s.
Proof.
  intros Hs.
  assert (exists x1, round_double (inject_Z (s * 1000000000)) = x1
                     /\ Qnum x1 = s * 1000000000 * Z.pos (Qden x1)) as (x1 & -> & Hx1).
  { eexists; split; [reflexivity |].
    unfold round_double, inject_Z; cbn [Qnum Qden].
    set (v := s * 1000000000) in *.
    rewrite (Z.abs_eq v) by lia.
    destruct (v =? 0) eqn:Hz.
    { apply Z.eqb_eq in Hz. rewrite Hz. reflexivity. }
    apply Z.eqb_neq in Hz.
    set (e := Z.max (binade v 1 - 52) (-1074)).
    assert (binade v 1 <= 61) as Hb.
    { apply binade_le; [lia | lia |]. change (2 ^ (61 + 1)) with 4611686018427387904. lia. }
    rewrite Z.sgn_pos, Z.mul_1_l by lia.
    destruct (0 <=? e) eqn:He.
    - apply Z.leb_le in He. cbn [Qnum Qden]. rewrite !Z.mul_1_l, Z.mul_1_r.
      assert (v mod 2 ^ e = 0) as Hmod.
      { apply Z.mod_divide; [apply Z.pow_nonzero; lia |].
        apply Z.divide_trans with (2 ^ 9).
        - exists (2 ^ (9 - e)). rewrite <- Z.pow_add_r by lia. f_equal. lia.
        - exists (s * 1953125). unfold v. change (2 ^ 9) with 512. lia. }
      rewrite round_half_even_exact by (try done; apply Z.pow_pos_nonneg; lia).
      pose proof (Z.div_mod v (2 ^ e) ltac:(apply Z.pow_nonzero; lia)) as Hdm.
      rewrite Hmod in Hdm. lia.
    - apply Z.leb_gt in He.
      set (K := 2 ^ (- e)).
      assert (0 < K) as HK by (apply Z.pow_pos_nonneg; lia).
      rewrite round_half_even_exact by (try apply Z.mod_1_r; lia).
      rewrite Z.div_1_r, ?Z.mul_1_l.
      pose proof (Qred_correct ((v * K) # Z.to_pos K)) as Hred.
      unfold Qeq in Hred. cbn [Qnum Qden] in Hred. rewrite Z2Pos.id in Hred by lia.
      set (r := Qred ((v * K) # Z.to_pos K)) in *. nia. }
  assert (0 <= s < 4611686019) as Hs' by lia.
  destruct (Qdiv_parts x1 1000000000) as [Hn Hd].
  change (inject_Z 1000000000) with (1000000000 : Q) in Hn, Hd.
  destruct (round_double_between (x1 / 1000000000) (2 * s) (2 * s)) as (Ha & Hb & Hc).
  { rewrite Hn. nia. }
  { rewrite Hn, Hd, Pos2Z.inj_mul. nia. }
  { rewrite Hn, Hd, Pos2Z.inj_mul. nia. }
  set (x2 := round_double (x1 / 1000000000)) in *.
  destruct (round6_between x2 (2 * s) (2 * s)) as (Ha' & Hb' & Hc'); try done; try nia.
  set (x3 := round6 x2) in *.
  unfold int_of_float. rewrite Z.quot_div_nonneg by lia.
  replace (Qnum x3) with (s * Z.pos (Qden x3)) by lia.
  apply Z.div_mul. lia.
Qed.

(** Every datetime is less than [2 ^ 38] seconds from 1970. *)
Lemma valid_wall_us (d : datetime) :
  valid_datetime d -> Z.abs (wall_us d) < 274877906944 * 1000000.
Proof.
  intros (Hy & Hm & Hd & Hh & Hmin & Hs & Hus).
  assert (forall n, 0 <= nth n [0; 0; 31; 59; 90; 120; 151; 181; 212; 243; 273; 304; 334] 0
                    <= 334) as Hnth.
  { intros n. do 13 (destruct n as [| n]; [simpl; lia |]). destruct n; simpl; lia. }
  specialize (Hnth (Z.to_nat (month d))).
  unfold wall_us, toordinal, days_before_year, days_before_month.
  destruct ((2 <? month d) && is_leap (year d));
    Z.to_euclidean_division_equations; lia.
Qed.

(** C10, as the code has it: for a [datetime] and for a pandas [Timestamp],
    [_to_unix] gives the same whatever [tzinfo] the value carries (the zone
    is replaced, the clock is not shifted), and what it gives is the float
    that [timestamp()] returns for the wall clock read as UTC, cut toward
    zero: for a [datetime] the double nearest to the wall clock's epoch, for a
    [Timestamp] the nanoseconds over [1e9] rounded to six decimals. For a
    [datetime] less than [2 ^ 34] seconds from 1970 that is the whole second
    of the wall clock, and for every [datetime] it is that second or the next
    one away from 1970. For a [Timestamp] on a whole second, from 1970 on and
    less than [2 ^ 62] nanoseconds from it, it is that second, and for every
    [Timestamp] from 1970 on it is within one second of the wall clock's.
    [None] comes back as [None]. *)
Theorem to_unix_replaces_timezone (d : datetime) (t : Timestamp) (tz : option Z)
    (milliseconds : bool) :
  Reader._to_unix (DDatetime (replace_tzinfo d tz)) false
  = Reader._to_unix (DDatetime d) false
  /\ Reader._to_unix (DTimestamp (Timestamp_replace_tzinfo t tz)) false
     = Reader._to_unix (DTimestamp t) false
  /\ Reader._to_unix (DDatetime d) false
     = Return (Some (int_of_float (round_double (wall_us d # 1000000))))
  /\ Reader._to_unix (DTimestamp t) false
     = Return (Some (int_of_float
                       (round6 (round_double
                                  (round_double (inject_Z (wall_ns t)) / 1000000000)))))
  /\ (Z.abs (wall_us d) < 17179869184 * 1000000 ->
      Reader._to_unix (DDatetime d) false = Return (Some (Z.quot (wall_us d) 1000000)))
  /\ (valid_datetime d ->
      exists r,
        Reader._to_unix (DDatetime d) false = Return (Some r)
        /\ (r = Z.quot (wall_us d) 1000000
            \/ r = Z.quot (wall_us d) 1000000 + Z.sgn (wall_us d)))
  /\ (0 <= wall_ns t < 4611686018427387904 ->
      wall_ns t mod 1000000000 = 0 ->
      Reader._to_unix (DTimestamp t) false = Return (Some (wall_ns t / 1000000000)))
  /\ (0 <= wall_ns t < 9223372036854775808 ->
      exists r,
        Reader._to_unix (DTimestamp t) false = Return (Some r)
        /\ wall_ns t / 1000000000 - 1 <= r <= wall_ns t / 1000000000 + 1)
  /\ Reader._to_unix DNone milliseconds = Return None.
Proof.
  assert (Reader._to_unix (DDatetime d) false
          = Return (Some (int_of_float (round_double (wall_us d # 1000000))))) as Hd.
  { unfold Reader._to_unix, datetime_timestamp. cbn [tzinfo replace_tzinfo].
    rewrite wall_us_replace_tzinfo. change (0 * 1000000) with 0.
    by rewrite Z.sub_0_r. }
  assert (Reader._to_unix (DTimestamp t) false
          = Return (Some (int_of_float
                            (round6 (round_double
                                       (round_double (inject_Z (wall_ns t))
                                        / 1000000000)))))) as Ht.
  { unfold Reader._to_unix, Timestamp_timestamp, Timestamp_replace_tzinfo, wall_ns.
    cbn [tzinfo replace_tzinfo ts_fields nanosecond].
    rewrite wall_us_replace_tzinfo. change (0 * 1000000000) with 0.
    by rewrite Z.sub_0_r. }
  split; [reflexivity |]. split; [reflexivity |].
  split; [exact Hd |]. split; [exact Ht |].
  repeat split.
  - intros Hnear. rewrite Hd.
    destruct (float_epoch_seconds (wall_us d) ltac:(lia)) as [_ Hexact].
    by rewrite (Hexact Hnear).
  - intros Hvalid. rewrite Hd. eexists. split; [reflexivity |].
    pose proof (valid_wall_us d Hvalid) as Hfar.
    exact (proj1 (float_epoch_seconds (wall_us d) ltac:(lia))).
  - intros Hrange Hwhole. rewrite Ht.
    pose proof (Z.div_mod (wall_ns t) 1000000000 ltac:(lia)) as Hs.
    rewrite Hwhole, Z.add_0_r, Z.mul_comm in Hs.
    rewrite Hs at 1.
    rewrite timestamp_whole_second; [done |]. rewrite <- Hs. exact Hrange.
  - intros Hrange. rewrite Ht. eexists. split; [reflexivity |].
    exact (timestamp_seconds_near (wall_ns t) Hrange).
Qed.

(** X15: what is lost. A datetime with offset [off] denotes the instant
    [off] seconds before its wall clock read as UTC; from 1970 on and less
    than [2 ^ 34] seconds from it, [_to_unix] returns the second of that
    instant plus [off]. *)
Lemma to_unix_not_converted (d : datetime) (off : Z) :
  tzinfo d = Some off ->
  0 <= wall_us d - off * 1000000 < 17179869184 * 1000000 ->
  0 <= wall_us d < 17179869184 * 1000000 ->
  Reader._to_unix (DDatetime d) false
  = Return (Some (int_of_float (datetime_timestamp d) + off)).
Proof.
  intros Htz Hinstant Hwall.
  unfold datetime_timestamp. rewrite Htz.
  destruct (float_epoch_seconds (wall_us d - off * 1000000) ltac:(lia)) as [_ Hi].
  rewrite (Hi ltac:(lia)).
  unfold Reader._to_unix, datetime_timestamp. cbn [tzinfo replace_tzinfo].
  rewrite wall_us_replace_tzinfo. change (0 * 1000000) with 0. rewrite Z.sub_0_r.
  destruct (float_epoch_seconds (wall_us d) ltac:(lia)) as [_ Hw].
  rewrite (Hw ltac:(lia)).
  rewrite !Z.quot_div_nonneg by lia.
  replace (wall_us d - off * 1000000) with (wall_us d + - off * 1000000) by lia.
  rewrite Z.div_add by lia. do 2 f_equal. lia.
Qed.

End ToUnix.

Example toordinal_epoch :
  toordinal (mk_datetime 1970 1 1 0 0 0 0 None) = 719163
  /\ toordinal (mk_datetime 2024 2 29 0 0 0 0 None) = 738945.
Proof. split; reflexivity. Qed.

(** 2021-03-04 05:06:07.5 at UTC+1 is the instant 1614830767.5; [_to_unix]
    returns 1614834367, the epoch of 05:06:07 UTC. *)
Example to_unix_paris :
  let d := mk_datetime 2021 3 4 5 6 7 500000 (Some 3600) in
  @Reader._to_unix (Toy.env []) (DDatetime d) false = Return (Some 1614834367)
  /\ @datetime_timestamp (Toy.env []) d = 3229661535 # 2.
Proof. vm_compute. split; reflexivity. Qed.

(** Where the float is not the epoch, the result is not the second of the
    wall clock. One microsecond before 2600-01-01 00:00:01 the nearest double
    is that second itself, and [_to_unix] returns it; a [Timestamp] 501
    nanoseconds before 05:06:08 is rounded to 05:06:08. *)
Lemma to_unix_is_not_the_whole_second :
  let d := mk_datetime 2600 1 1 0 0 0 999999 None in
  let t := mk_Timestamp (mk_datetime 2021 3 4 5 6 7 999999 None) 499 in
  @Reader._to_unix (Toy.env []) (DDatetime d) false = Return (Some 19880899201)
  /\ Z.quot (wall_us d) 1000000 = 19880899200
  /\ @Reader._to_unix (Toy.env []) (DTimestamp t) false = Return (Some 1614834368)
  /\ Z.quot (wall_ns t) 1000000000 = 1614834367.
Proof. vm_compute. repeat split. Qed.

Lemma to_unix_replaces_timezone_witness :
  let d := mk_datetime 2021 3 4 5 6 7 500000 (Some 3600) in
  @Reader._to_unix (Toy.env []) (DDatetime (replace_tzinfo d None)) false
  = @Reader._to_unix (Toy.env []) (DDatetime d) false
  /\ @Reader._to_unix (Toy.env []) (DDatetime d) false = Return (Some 1614834367)
  /\ valid_datetime d.
Proof.
  intros d.
  pose proof (@to_unix_replaces_timezone (Toy.env []) d (mk_Timestamp d 0) None false)
    as (Hzone & _ & _ & _ & Hnear & _).
  split; [exact Hzone |]. split.
  - exact (Hnear ltac:(vm_compute; reflexivity)).
  - unfold valid_datetime, d; simpl. lia.
Defined.

(** Other floats of the clock: a [Timestamp] half a microsecond before
    00:00:02 is cut to 1, the last microsecond of the year 9999 is given as
    the first second of the year after, and an odd second of the year 2116
    comes back as the second before. *)
Example to_unix_floats :
  @Reader._to_unix (Toy.env [])
    (DTimestamp (mk_Timestamp (mk_datetime 1970 1 1 0 0 1 999999 None) 500)) false
  = Return (Some 1)
  /\ @Reader._to_unix (Toy.env [])
       (DDatetime (mk_datetime 9999 12 31 23 59 59 999999 None)) false
     = Return (Some 253402300800)
  /\ @Reader._to_unix (Toy.env [])
       (DTimestamp (mk_Timestamp (mk_datetime 2116 2 20 23 53 41 0 None) 0)) false
     = Return (Some 4611686020)
  /\ wall_us (mk_datetime 2116 2 20 23 53 41 0 None) = 4611686021 * 1000000
  /\ @Reader._to_unix (Toy.env []) (DFloat (round_double (57 # 100))) true
     = Return (Some 570).
Proof. vm_compute. repeat split. Qed.

(** ** The query executor of [api.py] *)

Section Executor.
Context `{Env} `{ApiEnv}.




End Executor.


(** The older [_to_unix] compares the type with [datetime] itself: a pandas
    [Timestamp] falls through every branch and [epoch] is never bound. *)
Example api_to_unix_timestamp (t : Timestamp) :
  @API._to_unix (Toy.env []) (DTimestamp t) false = Raise UnboundLocalError.
Proof. reflexivity. Qed.

(** With a [stop], the flag decides: the same query, not streamed, comes back
    as text. *)
Example bounded_query_follows_flag :
  exists posts,
    @API._query (Toy.env []) Toy.api "from siem.logtrust.web.activity" (DInt 0) (DInt 60)
      "csv" false None []
    = (Return (API.Text "a,b 1,2"), posts)
    /\ Forall (fun post => stream post = false) posts.
Proof. eexists. split; [reflexivity | repeat constructor]. Qed.

(** ** The streaming decoder *)

Section Generators.
Context {A B : Type}.

Lemma for_list_Forall2 (f : A -> outcome B) (l : list A) (r : list B) :
  Reader.for_list f l = Return r -> Forall2 (fun a b => f a = Return b) l r.
Proof.
  revert r. induction l as [| a l IH]; simpl; intros r Hr.
  - inversion Hr. constructor.
  - destruct (f a) as [b | |] eqn:Hfa; [| discriminate..].
    destruct (Reader.for_list f l) as [bs | |]; [| discriminate..].
    inversion Hr; subst. constructor; auto.
Qed.

Lemma for_list_length (f : A -> outcome B) (l : list A) (r : list B) :
  Reader.for_list f l = Return r -> length r = length l.
Proof. intros Hr. symmetry. eapply Forall2_length, for_list_Forall2, Hr. Qed.

Lemma for_list_total (f : A -> outcome B) (l : list A) :
  (forall a, a ∈ l -> exists b, f a = Return b) ->
  exists r, Reader.for_list f l = Return r.
Proof.
  induction l as [| a l IH]; simpl; intros Hall.
  - eauto.
  - destruct (Hall a) as [b ->]; [left |].
    destruct IH as [bs ->]; [intros; apply Hall; by right |]. eauto.
Qed.

(** The i-th value of [for a in g: yield f(a)] is [f] of the i-th of [g]. *)
Lemma gen_for_yielded (f : A -> outcome B) (g : gen A) (i : nat) (b : B) :
  yielded (gen_for f g) !! i = Some b ->
  exists a, yielded g !! i = Some a /\ f a = Return b.
Proof.
  revert i. induction g as [| e | a rest IH]; simpl; intros i Hi; try discriminate.
  destruct (f a) as [b' | e |] eqn:Hfa; simpl in Hi; try discriminate.
  destruct i as [| i]; simpl in *.
  - inversion Hi; subst. eauto.
  - auto.
Qed.

End Generators.

Section Decoder.
Context `{Env}.

Lemma bind_Return {X Y : Type} (m : M X) (k : X -> M Y) (w w' : world) (y : Y) :
  bind m k w = (Return y, w') ->
  exists x w1, m w = (Return x, w1) /\ k x w1 = (Return y, w').
Proof.
  unfold bind. destruct (m w) as [[x | e |] w1]; intros Hk; try discriminate. eauto.
Qed.

Lemma lift_Return {X : Type} (o : outcome X) (w w' : world) (x : X) :
  lift o w = (Return x, w') -> o = Return x /\ w' = w.
Proof. unfold lift. intros Hl; inversion Hl; auto. Qed.

(** A converted row is as long as the shorter of the type list and the line. *)
Lemma convert_row_length (type_list : list Reader.converter) (fields : list string)
    (r : list value) :
  Reader.convert_row type_list fields = Return r ->
  length r = Nat.min (length type_list) (length fields).
Proof.
  unfold Reader.convert_row. intros Hr.
  rewrite (for_list_length _ _ _ Hr). apply length_zip.
Qed.

(** Fields past the last column are never looked at. *)
Lemma convert_row_take (type_list : list Reader.converter) (fields : list string) :
  Reader.convert_row type_list (take (length type_list) fields)
  = Reader.convert_row type_list fields.
Proof.
  unfold Reader.convert_row. f_equal. apply zip_with_take_r.
Qed.

(** Columns past the last field are never used. *)
Lemma convert_row_short (type_list : list Reader.converter) (fields : list string) :
  Reader.convert_row (take (length fields) type_list) fields
  = Reader.convert_row type_list fields.
Proof.
  unfold Reader.convert_row. f_equal. apply zip_with_take_l.
Qed.

(** The only errors of a row are those of its converters. *)
Lemma convert_row_total (type_list : list Reader.converter) (fields : list string) :
  (forall t v, (t, v) ∈ zip type_list fields -> exists x, t v = Return x) ->
  exists r, Reader.convert_row type_list fields = Return r.
Proof.
  intros Hall. apply for_list_total. intros [t v] Htv. simpl. auto.
Qed.

Lemma lookup_types_Forall2 (type_dict : gmap string Reader.converter)
    (cols : list string) (type_list : list Reader.converter) :
  Reader.lookup_types type_dict cols = Return type_list ->
  Forall2 (fun c t => type_dict !! c = Some t) cols type_list.
Proof.
  intros Hl. apply for_list_Forall2 in Hl.
  eapply Forall2_impl; [exact Hl |]. simpl. intros c t.
  destruct (type_dict !! c); simpl; congruence.
Qed.



(** [_stream] from the point where the probe and the request are done. *)
Lemma stream_after_header (linq_query : string) (start stop : date) (ts_format : string)
    (w w1 w2 : world) (type_dict : gmap string Reader.converter) (resp : response)
    (cols : list string) (records : gen (list string)) :
  Reader._get_types linq_query start ts_format w = (Return type_dict, w1) ->
  Reader._query linq_query start stop "csv" true None w1 = (Return resp, w2) ->
  next (Reader.csv_reader_gen (Reader._decode_results resp)) = Return (cols, records) ->
  Reader._stream linq_query start stop ts_format w
  = if negb (length cols =? size type_dict)%nat
    then (Raise (Exception Reader.duplicate_columns), w2)
    else match Reader.lookup_types type_dict cols with
         | Return type_list =>
             (Return (cols, gen_for (Reader.convert_row type_list) records), w2)
         | Raise e => (Raise e, w2)
         | OutOfFuel => (OutOfFuel, w2)
         end.
Proof.
  intros Ht Hq Hn. unfold Reader._stream, bind. rewrite Ht, Hq, Hn.
  destruct (negb (length cols =? size type_dict)%nat); [reflexivity |].
  unfold lift, ret.
  destruct (Reader.lookup_types type_dict cols); reflexivity.
Qed.


(** What a successful start of [_stream] went through. *)
Lemma stream_Return_inv (linq_query : string) (start stop : date) (ts_format : string)
    (w w' : world) (cols : list string) (rows : gen (list value)) :
  Reader._stream linq_query start stop ts_format w = (Return (cols, rows), w') ->
  exists type_dict w1 resp records type_list,
    Reader._get_types linq_query start ts_format w = (Return type_dict, w1)
    /\ Reader._query linq_query start stop "csv" true None w1 = (Return resp, w')
    /\ next (Reader.csv_reader_gen (Reader._decode_results resp)) = Return (cols, records)
    /\ length cols = size type_dict
    /\ Reader.lookup_types type_dict cols = Return type_list
    /\ rows = gen_for (Reader.convert_row type_list) records.
Proof.
  intros Hs. unfold Reader._stream in Hs.
  apply bind_Return in Hs as (type_dict & w1 & Ht & Hs).
  apply bind_Return in Hs as (resp & w2 & Hq & Hs).
  destruct (next (Reader.csv_reader_gen (Reader._decode_results resp)))
    as [[cols' records] | e |] eqn:Hn.
  - destruct (length cols' =? size type_dict)%nat eqn:Hlen; simpl in Hs;
      [| discriminate].
    apply bind_Return in Hs as (type_list & w3 & Hl & Hs).
    apply lift_Return in Hl as [Hl ->].
    inversion Hs; subst.
    exists type_dict, w1, resp, records, type_list.
    apply Nat.eqb_eq in Hlen. auto 10.
  - destruct e; discriminate.
  - discriminate.
Qed.

(** C9: a line with more or fewer fields than the header has columns is no
    error of its own. Converters and fields are paired by [zip]: each row
    yielded is as long as the shorter of the header and the line, fields past
    the last column are dropped and columns past the last field are left
    out. *)
Theorem stream_rows_follow_zip (linq_query : string) (start stop : date)
    (ts_format : string) (w w' : world) (cols : list string)
    (rows : gen (list value)) :
  Reader._stream linq_query start stop ts_format w = (Return (cols, rows), w') ->
  exists (type_list : list Reader.converter) (records : gen (list string)),
    length type_list = length cols
    /\ rows = gen_for (Reader.convert_row type_list) records
    /\ (forall i r,
          yielded rows !! i = Some r ->
          exists fields,
            yielded records !! i = Some fields
            /\ length r = Nat.min (length cols) (length fields)
            /\ Reader.convert_row type_list (take (length cols) fields) = Return r
            /\ Reader.convert_row (take (length fields) type_list) fields = Return r)
    /\ (forall fields,
          (forall t v, (t, v) ∈ zip type_list fields -> exists x, t v = Return x) ->
          exists r,
            Reader.convert_row type_list fields = Return r
            /\ length r = Nat.min (length cols) (length fields)).
Proof.
  intros Hs.
  apply stream_Return_inv in Hs
    as (type_dict & w1 & resp & records & type_list & _ & _ & _ & _ & Hl & ->).
  assert (length type_list = length cols) as Hlen.
  { symmetry. eapply Forall2_length, lookup_types_Forall2, Hl. }
  exists type_list, records. repeat split; [exact Hlen | |].
  - intros i r Hi. apply gen_for_yielded in Hi as (fields & Hf & Hr).
    exists fields. rewrite <- Hlen.
    rewrite convert_row_take, convert_row_short.
    auto using convert_row_length.
  - intros fields Hall.
    destruct (convert_row_total _ _ Hall) as [r Hr].
    exists r. rewrite <- Hlen. auto using convert_row_length.
Qed.

End Decoder.

(** A probe of two columns, a header of two columns, a line with a field too
    many and a line with a field too few. *)
Definition ragged_script : list response :=
  [RText "#host:str,hits:int8"; RLines ["host,hits"; "a.example,1,extra"; "b.example"]].

Definition ragged_world : world :=
  mk_world [mk_request "from web" (Some 9) (Some 10) "json/compact" false (Some 1);
            mk_request "from web" (Some 10) (Some 20) "csv" true None] [].

Lemma ragged_stream :
  @Reader._stream (Toy.env ragged_script) "from web" (DInt 10) (DInt 20) "datetime" Toy.w0
  = (Return (["host"; "hits"],
             GYield [VStr "a.example"; VInt 1] (GYield [VStr "b.example"] GStop)),
     ragged_world).
Proof. vm_compute. reflexivity. Qed.


(** The probe claims three columns and the header has two. *)
Example three_columns_against_two :
  @Reader._stream
    (Toy.env [RText "#host:str,hits:int8,user:str"; RLines ["host,hits"; "a.example,1"]])
    "from web" (DInt 10) (DInt 20) "datetime" Toy.w0
  = (Raise (Exception Reader.duplicate_columns),
     mk_world [mk_request "from web" (Some 9) (Some 10) "json/compact" false (Some 1);
               mk_request "from web" (Some 10) (Some 20) "csv" true None] []).
Proof. vm_compute. reflexivity. Qed.

(** Sizes agree and a header name is unknown to the schema: a [KeyError]. *)
Example unknown_header_name :
  (@Reader._stream
     (Toy.env [RText "#host:str,hits:int8"; RLines ["host,count"; "a.example,1"]])
     "from web" (DInt 10) (DInt 20) "datetime" Toy.w0).1
  = Raise (KeyError "count").
Proof. vm_compute. reflexivity. Qed.

Lemma stream_rows_follow_zip_witness :
  exists (type_list : list Reader.converter) (records : gen (list string)),
    length type_list = 2%nat
    /\ GYield [VStr "a.example"; VInt 1] (GYield [VStr "b.example"] GStop)
       = gen_for (@Reader.convert_row type_list) records.
Proof.
  destruct (@stream_rows_follow_zip (Toy.env ragged_script) "from web" (DInt 10)
              (DInt 20) "datetime" Toy.w0 _ _ _ ragged_stream)
    as (type_list & records & Hlen & Hrows & _).
  exists type_list, records. split; [exact Hlen | exact Hrows].
Defined.

(** ** The inclusion probability *)

Section Search.
Context `{Env}.






(** The values the search goes through, from its first one. *)
Definition candidate (p0 : Q) (i : nat) : Q := Nat.iter i Reader.grow p0.




(** It returns as soon as some candidate passes and the fuel reaches it. *)
Lemma search_returns (fuel : nat) (n k threshold p : Q) (i : nat) :
  Reader.tail_ok n k threshold (candidate p i) = true ->
  (i < fuel)%nat ->
  exists q, Reader.search fuel n k threshold p = Return q.
Proof.
  revert p i. induction fuel as [| fuel IH]; intros p i Hok Hi; [lia |].
  simpl. destruct (Reader.tail_ok n k threshold p) eqn:Hp; [eauto |].
  destruct i as [| i]; [simpl in Hok; congruence |].
  apply (IH _ i); [| lia].
  unfold candidate in *. by rewrite <- Nat.iter_succ_r.
Qed.

Lemma p0_bounds (n k : Z) :
  0 < k < n ->
  (0 < inject_Z k / inject_Z n)%Q /\ (inject_Z k / inject_Z n < 1)%Q
  /\ Qeq_bool (inject_Z n) 0 = false.
Proof.
  intros [Hk Hn]. destruct n as [| n | n]; try lia.
  unfold Qdiv, Qinv, Qmult, Qlt, Qeq_bool, inject_Z; simpl.
  repeat split; lia.
Qed.


(** X16: the search comes back once the fuel reaches a candidate that passes. *)
Lemma find_optimal_p_returns (fuel : nat) (n k : Z) (i : nat) :
  0 < k < n ->
  Reader.tail_ok (inject_Z n) (inject_Z k) (99 # 100)
    (candidate (inject_Z k / inject_Z n)%Q i) = true ->
  (i < fuel)%nat ->
  exists p, Reader._find_optimal_p fuel (inject_Z n) (inject_Z k) (99 # 100) = Return p.
Proof.
  intros Hkn Hok Hi. destruct (p0_bounds n k Hkn) as (_ & _ & Hn0).
  unfold Reader._find_optimal_p. rewrite Hn0. eapply search_returns; eauto.
Qed.

End Search.

(** Population 10000 and target 9000 with the toy tail: the first candidate
    to pass is eight steps from 0.9. *)
Definition toy_p : Q :=
  Eval vm_compute in
    match @Reader._find_optimal_p (Toy.env []) 20 10000 9000 (99 # 100) with
    | Return p => p
    | _ => 0%Q
    end.



Example toy_p_value :
  toy_p = candidate (9000 # 10000) 8 /\ (9071 # 10000 < toy_p)%Q /\ (toy_p < 9073 # 10000)%Q.
Proof. vm_compute. repeat split. Qed.

(** Population 5001 and target 5000: the second candidate is 1, where the
    deviation is 0 and the tail is not above the threshold; the search stays
    there for any fuel. *)
Example search_stuck_at_one (fuel : nat) :
  @Reader._find_optimal_p (Toy.env []) fuel (inject_Z 5001) (inject_Z 5000) (99 # 100)
  = OutOfFuel.
Proof.
  assert (forall fuel, @Reader.search (Toy.env []) fuel (inject_Z 5001) (inject_Z 5000)
                         (99 # 100) 1 = OutOfFuel) as Hone.
  { clear fuel. induction fuel as [| fuel IH]; [reflexivity |].
    change (@Reader.search (Toy.env []) fuel (inject_Z 5001) (inject_Z 5000)
              (99 # 100) 1 = OutOfFuel). exact IH. }
  destruct fuel as [| fuel]; [reflexivity |].
  change (@Reader.search (Toy.env []) fuel (inject_Z 5001) (inject_Z 5000)
            (99 # 100) 1 = OutOfFuel).
  apply Hone.
Qed.

(** ** What a query sends *)

Section Requests.
Context `{Env}.

Lemma to_unix_int (z : Z) : Reader._to_unix (DInt z) false = Return (Some z).
Proof.
  reflexivity.
Qed.

(** A request that comes back has been logged once, with the arguments of the
    caller: the streaming flag is handed on as it is. *)
Lemma query_request_inv (q : string) (start stop : date) (mode : string) (flag : bool)
    (limit : option Z) (w w' : world) (r : response) :
  Reader._query q start stop mode flag limit w = (Return r, w') ->
  exists s e,
    Reader._to_unix start false = Return s
    /\ Reader._to_unix stop false = Return e
    /\ w' = mk_world (sent w ++ [mk_request q s e mode flag limit]) (warned w).
Proof.
  intros Hq. unfold Reader._query in Hq.
  apply bind_Return in Hq as (s & w1 & Hs & Hq). apply lift_Return in Hs as [Hs ->].
  apply bind_Return in Hq as (e & w2 & He & Hq). apply lift_Return in He as [He ->].
  exists s, e. repeat split; auto.
  unfold Reader.send in Hq.
  destruct (client_query (sent w) (mk_request q s e mode flag limit));
    inversion Hq; reflexivity.
Qed.

(** The probe is one request, for the second before [start], not streamed. *)
Lemma get_types_request_inv (q : string) (start : date) (ts_format : string)
    (w w' : world) (type_dict : gmap string Reader.converter) :
  Reader._get_types q start ts_format w = (Return type_dict, w') ->
  exists s,
    Reader._to_unix start false = Return (Some s)
    /\ w' = mk_world
              (sent w ++ [mk_request q (Some (s - 1)) (Some s) "json/compact" false (Some 1)])
              (warned w).
Proof.
  intros Ht. unfold Reader._get_types in Ht.
  apply bind_Return in Ht as (type_map & wa & Hm & Ht). apply lift_Return in Hm as [_ ->].
  apply bind_Return in Ht as ([s |] & wb & Hs & Ht); [| discriminate].
  apply lift_Return in Hs as [Hs ->].
  apply bind_Return in Ht as (resp & wc & Hq & Ht).
  apply query_request_inv in Hq as (s' & e' & Hs' & He' & ->).
  rewrite to_unix_int in Hs', He'. inversion Hs'; inversion He'; subst.
  apply bind_Return in Ht as (data & wd & Hd & Ht). apply lift_Return in Hd as [_ ->].
  apply bind_Return in Ht as (object & we & Ho & Ht). apply lift_Return in Ho as [_ ->].
  apply bind_Return in Ht as (col_data & wf & Hc & Ht). apply lift_Return in Hc as [_ ->].
  destruct col_data; try discriminate.
  apply lift_Return in Ht as [_ ->]. eauto.
Qed.

(** What a query that returns went through: its shape was valid, the stream
    started, two requests carrying its text were sent, no warning was
    emitted. *)
Lemma query_Return_inv (q : string) (start stop : date) (output ts_format : string)
    (w w' : world) (t : Reader.table) :
  Reader.query q start stop output ts_format w = (Return t, w') ->
  exists cols rows s e,
    Reader._stream q start stop ts_format w = (Return (cols, rows), w')
    /\ Reader.project output rows cols = Return t
    /\ (String.eqb output "dataframe" && is_None stop = false)
    /\ w' = mk_world
              (sent w ++ [mk_request q (Some (s - 1)) (Some s) "json/compact" false (Some 1);
                          mk_request q (Some s) e "csv" true None])
              (warned w).
Proof.
  intros Hq. unfold Reader.query in Hq.
  destruct (negb (bool_decide (output ∈ Reader.valid_outputs))); [discriminate |].
  destruct (String.eqb output "dataframe" && is_None stop) eqn:Hguard; [discriminate |].
  apply bind_Return in Hq as ([cols rows] & wa & Hs & Hp).
  apply lift_Return in Hp as [Hp ->]. simpl in Hp.
  destruct (stream_Return_inv _ _ _ _ _ _ _ _ Hs)
    as (type_dict & w1 & resp & records & type_list & Ht & Hr & _).
  apply get_types_request_inv in Ht as (s & Hstart & ->).
  apply query_request_inv in Hr as (s' & e & Hs' & He & ->).
  rewrite Hstart in Hs'. inversion Hs'; subst.
  exists cols, rows, s, e. simpl in Hs |- *.
  rewrite <- app_assoc in Hs |- *. simpl in Hs |- *. auto.
Qed.

(** The dataframe shape gives a [DataFrame] whose index is [0 .. n-1]. *)
Lemma project_dataframe (rows : gen (list value)) (cols : list string)
    (t : Reader.table) :
  Reader.project "dataframe" rows cols = Return t ->
  exists df,
    t = Reader.OfDataFrame df
    /\ Reader._to_dataframe rows cols = Return df
    /\ Reader.df_columns df = cols
    /\ (Reader.df_rows df).*1 = seq 0 (length (Reader.df_rows df)).
Proof.
  unfold Reader.project; simpl.
  destruct (Reader._to_dataframe rows cols) as [df | |] eqn:Hdf; intros Ht;
    inversion Ht; subst.
  exists df. repeat split; auto.
  - unfold Reader._to_dataframe in Hdf.
    destruct (consume rows) as [rs | |]; try discriminate.
    destruct (_ && _); inversion Hdf; reflexivity.
  - unfold Reader._to_dataframe in Hdf.
    destruct (consume rows) as [rs | |]; try discriminate.
    destruct (_ && _); inversion Hdf; simpl.
    unfold Reader.number_rows. rewrite length_zip, length_seq, Nat.min_id.
    apply fst_zip. by rewrite length_seq.
Qed.

End Requests.

(** ** The sampler *)

Section FullTable.
Context `{Env}.

(** The count query is one query, on the text with the count appended; it
    emits no warning. *)
Lemma table_size_inv (q : string) (start stop : date) (w w1 : world) (size : value) :
  Reader.table_size q start stop w = (Return size, w1) ->
  exists s e,
    w1 = mk_world
           (sent w ++ [mk_request (Reader.size_query q) (Some (s - 1)) (Some s)
                         "json/compact" false (Some 1);
                       mk_request (Reader.size_query q) (Some s) e "csv" true None])
           (warned w).
Proof.
  intros Hs. unfold Reader.table_size in Hs.
  apply bind_Return in Hs as (r & wa & Hq & Hs).
  apply query_Return_inv in Hq as (cols & rows & s & e & _ & _ & _ & ->).
  exists s, e.
  destruct r as [r | | |]; try discriminate.
  destruct (next r) as [[row rest] | |]; try discriminate.
  apply lift_Return in Hs as [_ ->]. reflexivity.
Qed.


End FullTable.


Definition full_script : list response :=
  [RText "#count:int8"; RLines ["count"; "3"];
   RText "#host:str,hits:int8";
   RLines ["host,hits"; "a.example,1"; "b.example,"; "c.example,3"]].



(** The full table of that run: three rows; the empty cell is NaN, and the
    column it is in is a column of floats. *)
Example full_table_returned :
  (@Reader.randomSample (Toy.env full_script) 10 "from web" (DInt 10) (DInt 20)
     (NInt 3) Toy.w0).1
  = Return (Reader.OfDataFrame
              (Reader.mk_DataFrame ["host"; "hits"]
                 [(0%nat, [VStr "a.example"; VFloat (1 # 1)]);
                  (1%nat, [VStr "b.example"; VNaN]);
                  (2%nat, [VStr "c.example"; VFloat (3 # 1)])])).
Proof. vm_compute. reflexivity. Qed.

Section Rows.

Abbreviation row := (nat * list value)%type.

Definition label_lt (x y : row) : Prop := (x.1 < y.1)%nat.

Lemma insert_row_perm (r : row) (rows : list row) :
  Reader.insert_row r rows ≡ₚ r :: rows.
Proof.
  induction rows as [| x rows IH]; simpl; [reflexivity |].
  destruct (r.1 <=? x.1)%nat; [reflexivity |].
  rewrite IH. apply perm_swap.
Qed.

Lemma sort_rows_perm (rows : list row) :
  foldr Reader.insert_row [] rows ≡ₚ rows.
Proof.
  induction rows as [| x rows IH]; simpl; [reflexivity |].
  rewrite insert_row_perm. by rewrite IH.
Qed.

Lemma insert_row_sorted (r : row) (rows : list row) :
  StronglySorted label_lt rows ->
  r.1 ∉ rows.*1 ->
  StronglySorted label_lt (Reader.insert_row r rows).
Proof.
  induction rows as [| x rows IH]; simpl; intros Hs Hr.
  - repeat constructor.
  - apply StronglySorted_inv in Hs as [Hs Hx].
    apply not_elem_of_cons in Hr as [Hrx Hr].
    destruct (Nat.leb_spec r.1 x.1) as [Hle | Hgt].
    + constructor; [by constructor |].
      constructor; [unfold label_lt; lia |].
      eapply Forall_impl; [exact Hx |]. unfold label_lt. intros y Hy. lia.
    + constructor; [auto |].
      rewrite insert_row_perm. constructor; [exact Hgt | exact Hx].
Qed.

(** Sorting rows with distinct labels puts the labels in increasing order. *)
Lemma sort_rows_sorted (rows : list row) :
  NoDup rows.*1 -> StronglySorted label_lt (foldr Reader.insert_row [] rows).
Proof.
  induction rows as [| x rows IH]; simpl; intros Hnd; [constructor |].
  apply NoDup_cons in Hnd as [Hx Hnd].
  apply insert_row_sorted; [auto |].
  by rewrite sort_rows_perm.
Qed.

(** Rows taken from a table in increasing position are a subsequence of it. *)
Lemma increasing_positions_sublist (picked rows : list row) (base : nat) :
  StronglySorted label_lt picked ->
  (forall x, x ∈ picked -> (base <= x.1)%nat /\ rows !! (x.1 - base)%nat = Some x) ->
  picked `sublist_of` rows.
Proof.
  revert rows base. induction picked as [| x picked IH]; intros rows base Hs Hin.
  - apply sublist_nil_l.
  - apply StronglySorted_inv in Hs as [Hs Hx].
    destruct (Hin x) as [Hbase Hlook]; [left |].
    rewrite <- (take_drop_middle rows _ x Hlook).
    apply sublist_inserts_l, sublist_skip.
    apply (IH _ (S x.1) Hs). intros y Hy.
    rewrite Forall_forall in Hx. specialize (Hx y Hy). unfold label_lt in Hx.
    destruct (Hin y) as [Hby Hly]; [by right |].
    split; [lia |]. rewrite lookup_drop. rewrite <- Hly. f_equal. lia.
Qed.

(** In a table indexed [0 .. n-1] the label of a row is its position. *)
Lemma label_is_position (rows : list row) (i : nat) (x : row) :
  rows.*1 = seq 0 (length rows) -> rows !! i = Some x -> x.1 = i.
Proof.
  intros Hidx Hx.
  assert (rows.*1 !! i = Some x.1) as Hl by (by rewrite list_lookup_fmap, Hx).
  rewrite Hidx in Hl. apply lookup_seq in Hl. lia.
Qed.

Lemma picked_labels (rows : list row) (ps : list nat) :
  rows.*1 = seq 0 (length rows) ->
  (forall i, i ∈ ps -> (i < length rows)%nat) ->
  (omap (fun i => rows !! i) ps).*1 = ps.
Proof.
  intros Hidx. induction ps as [| i ps IH]; intros Hlt; [reflexivity |].
  simpl. destruct (lookup_lt_is_Some_2 rows i) as [x Hx]; [apply Hlt; left |].
  rewrite Hx. simpl. rewrite (label_is_position _ _ _ Hidx Hx).
  f_equal. apply IH. intros j Hj. apply Hlt. by right.
Qed.

Lemma number_rows_spec (rs : list (list value)) :
  (Reader.number_rows rs).*1 = seq 0 (length rs)
  /\ (Reader.number_rows rs).*2 = rs
  /\ length (Reader.number_rows rs) = length rs.
Proof.
  unfold Reader.number_rows. repeat split.
  - apply fst_zip. by rewrite length_seq.
  - apply snd_zip. by rewrite length_seq.
  - rewrite length_zip, length_seq. lia.
Qed.

End Rows.

Section Sample.
Context `{Env}.

(** What is asked of [DataFrame.sample(k)] on [n >= k] rows: [k] positions
    below [n], no position twice. Which ones is left to the generator. *)
Definition sample_draws_distinct : Prop :=
  forall n k : nat,
    (k <= n)%nat ->
    NoDup (sample_positions n k)
    /\ length (sample_positions n k) = k
    /\ forall i, i ∈ sample_positions n k -> (i < n)%nat.

(** [df.sample(k).sort_index().reset_index(drop=True)] on a table indexed
    [0 .. n-1]: [k] rows of [df] in the order they have in [df], indexed
    [0 .. k-1]. *)
Lemma sample_sort_reset (df s : Reader.DataFrame) (k : nat) :
  sample_draws_distinct ->
  (Reader.df_rows df).*1 = seq 0 (length (Reader.df_rows df)) ->
  Reader.df_sample k df = Return s ->
  let out := Reader.reset_index (Reader.sort_index s) in
  Reader.df_columns out = Reader.df_columns df
  /\ length (Reader.df_rows out) = k
  /\ (Reader.df_rows out).*1 = seq 0 k
  /\ (Reader.df_rows out).*2 `sublist_of` (Reader.df_rows df).*2.
Proof.
  intros Hlaw Hidx Hs out. unfold Reader.df_sample in Hs.
  destruct (Nat.leb_spec k (length (Reader.df_rows df))) as [Hk |]; [| discriminate].
  inversion Hs; subst s; clear Hs.
  destruct (Hlaw _ _ Hk) as (Hnd & Hlen & Hlt).
  set (ps := sample_positions (length (Reader.df_rows df)) k) in *.
  set (picked := omap (fun i => Reader.df_rows df !! i) ps).
  assert (picked.*1 = ps) as Hlabels by (by apply picked_labels).
  set (sorted := foldr Reader.insert_row [] picked).
  assert (sorted ≡ₚ picked) as Hperm by apply sort_rows_perm.
  assert (length sorted = k) as Hsorted_len.
  { rewrite Hperm. rewrite <- (length_fmap fst), Hlabels. exact Hlen. }
  assert (StronglySorted label_lt sorted) as Hsorted.
  { apply sort_rows_sorted. by rewrite Hlabels. }
  assert (sorted `sublist_of` Reader.df_rows df) as Hsub.
  { apply (increasing_positions_sublist _ _ 0 Hsorted). intros x Hx.
    split; [lia |]. rewrite Nat.sub_0_r.
    rewrite Hperm in Hx. apply list_elem_of_omap in Hx as (i & _ & Hi).
    by rewrite (label_is_position _ _ _ Hidx Hi). }
  subst out. unfold Reader.reset_index, Reader.sort_index.
  cbn [Reader.df_rows Reader.df_columns]. fold picked. fold sorted.
  change (map snd sorted) with (sorted.*2).
  destruct (number_rows_spec sorted.*2) as (Hn1 & Hn2 & Hn3).
  rewrite length_fmap, Hsorted_len in Hn1, Hn3.
  repeat split; auto.
  rewrite Hn2. by apply fmap_sublist.
Qed.

(** The loop returns from the first draw that has enough rows. *)
Lemma sample_loop_inv (fuel : nat) (sample_query : string) (start stop : date)
    (k : Z) (w w' : world) (t : Reader.table) :
  Reader.sample_loop fuel sample_query start stop k w = (Return t, w') ->
  exists df s w0,
    Reader.query sample_query start stop "dataframe" "datetime" w0
    = (Return (Reader.OfDataFrame df), w')
    /\ k <= Reader.shape0 df
    /\ Reader.df_sample (Z.to_nat k) df = Return s
    /\ t = Reader.OfDataFrame (Reader.reset_index (Reader.sort_index s)).
Proof.
  revert w. induction fuel as [| fuel IH]; simpl; intros w Hl; [discriminate |].
  apply bind_Return in Hl as (t0 & w1 & Hq & Hl).
  destruct t0 as [| | | df]; try discriminate.
  destruct (Z.leb_spec k (Reader.shape0 df)) as [Hk | Hk].
  - destruct (Reader.df_sample (Z.to_nat k) df) as [s | |] eqn:Hs; try discriminate.
    inversion Hl; subst. exists df, s, w. auto.
  - eauto.
Qed.


End Sample.

Lemma toy_draws_distinct (script : list response) :
  @sample_draws_distinct (Toy.env script).
Proof.
  intros n k Hk. simpl. unfold Toy.last_first. repeat split.
  - rewrite reverse_Permutation. apply NoDup_seq.
  - by rewrite length_reverse, length_seq.
  - intros i Hi. apply elem_of_reverse, elem_of_seq in Hi. lia.
Qed.

(** The draw takes rows 3 and 2 in that order; sorting puts them back in the
    order of the table and the index is renumbered. *)
Example sample_then_sort_then_reset :
  let df := Reader.mk_DataFrame ["host"]
              [(0%nat, [VStr "a"]); (1%nat, [VStr "b"]);
               (2%nat, [VStr "c"]); (3%nat, [VStr "d"])] in
  @Reader.df_sample (Toy.env []) 2 df
  = Return (Reader.mk_DataFrame ["host"] [(3%nat, [VStr "d"]); (2%nat, [VStr "c"])])
  /\ (match @Reader.df_sample (Toy.env []) 2 df with
      | Return s => Return (Reader.reset_index (Reader.sort_index s))
      | o => o
      end)
     = Return (Reader.mk_DataFrame ["host"] [(0%nat, [VStr "c"]); (1%nat, [VStr "d"])]).
Proof. split; reflexivity. Qed.




(** * Further properties of the pipeline *)

(** ** Requests of one query *)

Section QueryRequests.
Context `{Env}.


(** X2: a timestamp format other than datetime, iso and timestamp is refused by
    a query whose output shape is accepted, and nothing has been sent. *)
Theorem query_rejects_ts_format (q : string) (start stop : date)
    (output ts_format : string) (w : world) :
  output ∈ Reader.valid_outputs ->
  String.eqb output "dataframe" && is_None stop = false ->
  ts_format ∉ Reader.ts_formats ->
  Reader.query q start stop output ts_format w
  = (Raise (Exception "ts_format must be one of: datetime, iso, or timestamp "), w).
Proof.
  intros Hout Hguard Hts. unfold Reader.query.
  rewrite bool_decide_eq_true_2 by assumption. simpl. rewrite Hguard.
  unfold bind, Reader._stream, Reader._get_types, bind, lift,
    Reader._make_type_map, Reader.make_ts_func.
  rewrite bool_decide_eq_false_2 by assumption. reflexivity.
Qed.

(** X3: without a start there is no probe window: [None - 1] is a [TypeError],
    raised before anything is sent. *)
Theorem query_without_start (q : string) (stop : date) (output ts_format : string)
    (w : world) :
  output ∈ Reader.valid_outputs ->
  String.eqb output "dataframe" && is_None stop = false ->
  ts_format ∈ Reader.ts_formats ->
  Reader.query q DNone stop output ts_format w = (Raise TypeError, w).
Proof.
  intros Hout Hguard Hts. unfold Reader.query.
  rewrite bool_decide_eq_true_2 by assumption. simpl. rewrite Hguard.
  unfold bind, Reader._stream, Reader._get_types, bind, lift,
    Reader._make_type_map, Reader.make_ts_func.
  rewrite bool_decide_eq_true_2 by assumption. reflexivity.
Qed.

(** The probe request of a query that starts at [s]. *)
Definition probe_request (q : string) (s : Z) : request :=
  mk_request q (Some (s - 1)) (Some s) "json/compact" false (Some 1).

Lemma get_types_after_probe (q : string) (start : date) (ts_format : string)
    (w : world) (s : Z) :
  ts_format ∈ Reader.ts_formats ->
  Reader._to_unix start false = Return (Some s) ->
  exists type_map,
    Reader._make_type_map ts_format = Return type_map
    /\ Reader._get_types q start ts_format w
       = bind (Reader.send (probe_request q s))
           (fun response =>
              (data <- lift (Reader.loads_checked response);;
               object <- lift (Reader.subscript data "object");;
               col_data <- lift (Reader.subscript object "m");;
               match col_data with
               | JObj col_data => lift (Reader.type_dict_of type_map col_data ∅)
               | _ => raise AttributeError
               end)%py) w.
Proof.
  intros Hts Hs.
  unfold Reader._get_types, Reader._make_type_map, Reader.make_ts_func.
  rewrite bool_decide_eq_true_2 by assumption. simpl.
  eexists. split; [reflexivity |].
  unfold bind at 1. unfold lift at 1.
  unfold bind at 1. unfold lift at 1. rewrite Hs.
  unfold bind at 1. unfold Reader._query.
  unfold bind at 1. unfold lift at 1. rewrite to_unix_int.
  unfold bind at 1. unfold lift at 1. rewrite to_unix_int.
  reflexivity.
Qed.

(** X4: a probe answer that is no JSON ends the query with the exception of the
    probe; the probe is the only request sent. *)
Theorem query_probe_not_json (q : string) (start stop : date)
    (output ts_format : string) (w : world) (s : Z) (body : string) :
  output ∈ Reader.valid_outputs ->
  String.eqb output "dataframe" && is_None stop = false ->
  ts_format ∈ Reader.ts_formats ->
  Reader._to_unix start false = Return (Some s) ->
  client_query (sent w) (probe_request q s) = RText body ->
  json_loads body = None ->
  Reader.query q start stop output ts_format w
  = (Raise (Exception "API V2 response error"),
     mk_world (sent w ++ [probe_request q s]) (warned w)).
Proof.
  intros Hout Hguard Hts Hs Hclient Hjson. unfold Reader.query.
  rewrite bool_decide_eq_true_2 by assumption. simpl. rewrite Hguard.
  unfold bind at 1. unfold Reader._stream. unfold bind at 1.
  destruct (get_types_after_probe q start ts_format w s Hts Hs) as (type_map & _ & ->).
  unfold bind at 1. unfold Reader.send. rewrite Hclient.
  unfold bind at 1. unfold lift at 1. simpl. rewrite Hjson. reflexivity.
Qed.

(** X5: a failure of the transport on the probe is raised as it is, after that one
    request: nothing is retried. *)
Theorem query_probe_transport_failure (q : string) (start stop : date)
    (output ts_format : string) (w : world) (s : Z) (e : exn) :
  output ∈ Reader.valid_outputs ->
  String.eqb output "dataframe" && is_None stop = false ->
  ts_format ∈ Reader.ts_formats ->
  Reader._to_unix start false = Return (Some s) ->
  client_query (sent w) (probe_request q s) = RFail e ->
  Reader.query q start stop output ts_format w
  = (Raise e, mk_world (sent w ++ [probe_request q s]) (warned w)).
Proof.
  intros Hout Hguard Hts Hs Hclient. unfold Reader.query.
  rewrite bool_decide_eq_true_2 by assumption. simpl. rewrite Hguard.
  unfold bind at 1. unfold Reader._stream. unfold bind at 1.
  destruct (get_types_after_probe q start ts_format w s Hts Hs) as (type_map & _ & ->).
  unfold bind at 1. unfold Reader.send. rewrite Hclient. reflexivity.
Qed.

End QueryRequests.

Ltac by_decision :=
  match goal with |- ?P => apply (@bool_decide_unpack P _) end; vm_compute; exact I.



Lemma query_rejects_ts_format_witness :
  @Reader.query (Toy.env []) "from web" (DInt 10) (DInt 20) "dict" "epoch" Toy.w0
  = (Raise (Exception "ts_format must be one of: datetime, iso, or timestamp "), Toy.w0).
Proof.
  apply (@query_rejects_ts_format (Toy.env [])); [by_decision | reflexivity | by_decision].
Defined.

Lemma query_without_start_witness :
  @Reader.query (Toy.env []) "from web" DNone (DInt 20) "dataframe" "iso" Toy.w0
  = (Raise TypeError, Toy.w0).
Proof.
  apply (@query_without_start (Toy.env [])); [by_decision | reflexivity | by_decision].
Defined.

Lemma query_probe_not_json_witness :
  @Reader.query (Toy.env [RText "<html>502 Bad Gateway</html>"]) "from web" (DInt 10)
    (DInt 20) "dict" "datetime" Toy.w0
  = (Raise (Exception "API V2 response error"),
     mk_world [probe_request "from web" 10] []).
Proof.
  apply (@query_probe_not_json (Toy.env [RText "<html>502 Bad Gateway</html>"])
           "from web" (DInt 10) (DInt 20) "dict" "datetime" Toy.w0 10
           "<html>502 Bad Gateway</html>");
    [by_decision | reflexivity | by_decision | reflexivity | reflexivity | reflexivity].
Defined.

Lemma query_probe_transport_failure_witness :
  @Reader.query (Toy.env []) "from web" (DInt 10) (DInt 20) "dict" "datetime" Toy.w0
  = (Raise (TransportError "end of script"), mk_world [probe_request "from web" 10] []).
Proof.
  apply (@query_probe_transport_failure (Toy.env []) "from web" (DInt 10) (DInt 20)
           "dict" "datetime" Toy.w0 10);
    [by_decision | reflexivity | by_decision | reflexivity | reflexivity].
Defined.

(** ** Schema and header *)

Section Schema.
Context `{Env}.

(** [type_dict_of] reads the columns in order; the entry of a name is the
    converter of its last tag. *)
Lemma type_dict_of_app (type_map : Reader.defaultdict)
    (col_data : list (string * json)) (acc d : gmap string Reader.converter) :
  Reader.type_dict_of type_map col_data acc = Return d ->
  dom d = dom acc ∪ list_to_set col_data.*1
  /\ forall c, c ∉ col_data.*1 -> d !! c = acc !! c.
Proof.
  revert acc. induction col_data as [| [c v] col_data IH]; simpl; intros acc Hd.
  - inversion Hd; subst. split; [set_solver | auto].
  - destruct (Reader.subscript v "type") as [tag | |]; try discriminate.
    destruct (Reader.type_of_tag type_map tag) as [t | |]; try discriminate.
    destruct (IH _ Hd) as [Hdom Hrest]. split.
    + rewrite Hdom, dom_insert_L. set_solver.
    + intros c' Hc'. apply not_elem_of_cons in Hc' as [Hne Hc'].
      rewrite (Hrest _ Hc'). by apply lookup_insert_ne.
Qed.

Lemma type_dict_of_fresh (type_map : Reader.defaultdict)
    (col_data : list (string * json)) (acc d : gmap string Reader.converter) :
  Reader.type_dict_of type_map col_data acc = Return d ->
  NoDup col_data.*1 ->
  (forall c, c ∈ col_data.*1 -> acc !! c = None) ->
  size d = (size acc + length col_data)%nat
  /\ forall c v tag,
       (c, v) ∈ col_data ->
       Reader.subscript v "type" = Return (JStr tag) ->
       d !! c = Some (Reader.dd_get type_map tag).
Proof.
  revert acc. induction col_data as [| [c v] col_data IH]; simpl; intros acc Hd Hnd Hacc.
  - inversion Hd; subst. split; [lia |]. intros c v tag Hin. inversion Hin.
  - destruct (Reader.subscript v "type") as [tag0 | |] eqn:Hv; try discriminate.
    destruct (Reader.type_of_tag type_map tag0) as [t | |] eqn:Ht; try discriminate.
    apply NoDup_cons in Hnd as [Hc Hnd].
    destruct (IH _ Hd Hnd) as [Hsize Hlook].
    { intros c' Hc'. rewrite lookup_insert_ne by (intros ->; contradiction).
      apply Hacc. by right. }
    split.
    + rewrite Hsize, map_size_insert_None by (apply Hacc; left). lia.
    + intros c' v' tag Hin Htag. apply elem_of_cons in Hin as [Heq | Hin].
      * inversion Heq; subst c' v'. rewrite Hv in Htag. inversion Htag; subst tag0.
        simpl in Ht. inversion Ht; subst t.
        destruct (type_dict_of_app _ _ _ _ Hd) as [_ Hrest].
        rewrite (Hrest _ Hc). apply lookup_insert_eq.
      * eauto.
Qed.

(** X6: the schema of a probe has exactly the probed column names as keys; with
    no name twice it has one entry per column, and the entry of a column
    whose type tag is a string is the converter the type map has for that
    tag. *)
Theorem type_dict_of_columns (type_map : Reader.defaultdict)
    (col_data : list (string * json)) (d : gmap string Reader.converter) :
  Reader.type_dict_of type_map col_data ∅ = Return d ->
  (forall c, is_Some (d !! c) <-> c ∈ col_data.*1)
  /\ (NoDup col_data.*1 ->
      size d = length col_data
      /\ forall c v tag,
           (c, v) ∈ col_data ->
           Reader.subscript v "type" = Return (JStr tag) ->
           d !! c = Some (Reader.dd_get type_map tag)).
Proof.
  intros Hd. split.
  - intros c. destruct (type_dict_of_app _ _ _ _ Hd) as [Hdom _].
    rewrite <- elem_of_dom, Hdom. set_solver.
  - intros Hnd.
    destruct (type_dict_of_fresh _ _ _ _ Hd Hnd) as [Hsize Hlook];
      [intros; apply lookup_empty |].
    rewrite map_size_empty in Hsize. auto.
Qed.

End Schema.

Definition probed_columns : list (string * json) :=
  [("host", JObj [("type", JStr "str")]); ("hits", JObj [("type", JStr "int8")])].

Lemma type_dict_of_columns_witness :
  exists type_map d,
    @Reader._make_type_map (Toy.env []) "iso" = Return type_map
    /\ @Reader.type_dict_of type_map probed_columns ∅ = Return d
    /\ size d = 2%nat
    /\ d !! "hits" = Some (Reader.dd_get type_map "int8").
Proof.
  eexists _, _. split; [reflexivity |]. split; [reflexivity |].
  match goal with
  | |- size ?d = _ /\ _ =>
      destruct (proj2 (@type_dict_of_columns _ probed_columns d eq_refl))
        as [Hsize Hlook]; [by_decision |]
  end.
  split; [exact Hsize |].
  apply (Hlook "hits" (JObj [("type", JStr "int8")]) "int8"); [| reflexivity].
  unfold probed_columns. right. left.
Defined.

(** ** Output shapes *)

Section Shapes.
Context `{Env}.

Lemma gen_for_pure {A B : Type} (f : A -> B) (g : gen A) :
  yielded (gen_for (fun a => Return (f a)) g) = f <$> yielded g
  /\ ending (gen_for (fun a => Return (f a)) g) = ending g.
Proof.
  induction g as [| e | a rest [IHy IHe]]; simpl; auto.
  split; [by f_equal | exact IHe].
Qed.

Lemma insert_all_absent (kvs : list (string * value)) (acc : gmap string value)
    (c : string) :
  c ∉ kvs.*1 ->
  foldl (fun m cv => <[cv.1 := cv.2]> m) acc kvs !! c = acc !! c.
Proof.
  revert acc. induction kvs as [| [k v] kvs IH]; simpl; intros acc Hc; [reflexivity |].
  apply not_elem_of_cons in Hc as [Hne Hc].
  rewrite (IH _ Hc). by apply lookup_insert_ne.
Qed.

Lemma insert_all_last (pre post : list (string * value)) (acc : gmap string value)
    (c : string) (v : value) :
  c ∉ post.*1 ->
  foldl (fun m cv => <[cv.1 := cv.2]> m) acc (pre ++ (c, v) :: post) !! c = Some v.
Proof.
  intros Hc. rewrite foldl_app. simpl.
  rewrite (insert_all_absent _ _ _ Hc). apply lookup_insert_eq.
Qed.

Lemma insert_all_dom (kvs : list (string * value)) (acc : gmap string value) :
  dom (foldl (fun m cv => <[cv.1 := cv.2]> m) acc kvs) = dom acc ∪ list_to_set kvs.*1.
Proof.
  revert acc. induction kvs as [| [k v] kvs IH]; simpl; intros acc; [set_solver |].
  rewrite IH, dom_insert_L. set_solver.
Qed.

(** X9: the dict shape: each row becomes the mapping from the column names it
    has a value for, in header order, to those values. Its keys are the
    first [min(len(cols), len(row))] column names; the value at a position
    is found under its column name unless a later column that still has a
    value bears the same name, so with distinct names every value is found. *)
Theorem to_dict_lookup (results : gen (list value)) (cols : list string) :
  yielded (Reader._to_dict results cols) = Reader.dict_of cols <$> yielded results
  /\ ending (Reader._to_dict results cols) = ending results
  /\ forall row : list value,
       dom (Reader.dict_of cols row) = list_to_set (take (length row) cols)
       /\ (forall i c v,
             cols !! i = Some c -> row !! i = Some v ->
             c ∉ drop (S i) (take (length row) cols) ->
             Reader.dict_of cols row !! c = Some v)
       /\ (NoDup cols ->
           forall i c v,
             cols !! i = Some c -> row !! i = Some v ->
             Reader.dict_of cols row !! c = Some v).
Proof.
  unfold Reader._to_dict.
  destruct (gen_for_pure (Reader.dict_of cols) results) as [Hy He].
  split; [exact Hy |]. split; [exact He |]. intros row.
  assert ((zip cols row).*1 = take (length row) cols) as Hfst.
  { rewrite <- (zip_with_take_l pair cols row).
    apply fst_zip. rewrite length_take. lia. }
  assert (forall i c v,
             cols !! i = Some c -> row !! i = Some v ->
             c ∉ drop (S i) (take (length row) cols) ->
             Reader.dict_of cols row !! c = Some v) as Hlast.
  { intros i c v Hc Hv Hlater. unfold Reader.dict_of.
    assert (zip cols row !! i = Some (c, v)) as Hz.
    { rewrite lookup_zip_with, Hc. simpl. by rewrite Hv. }
    rewrite <- (take_drop_middle _ _ _ Hz).
    apply insert_all_last. rewrite fmap_drop, Hfst. exact Hlater. }
  split; [| split].
  - unfold Reader.dict_of. rewrite insert_all_dom, Hfst. set_solver.
  - exact Hlast.
  - intros Hnd i c v Hc Hv. apply (Hlast i c v Hc Hv).
    intros Hin. apply list_elem_of_lookup in Hin as [j Hj].
    rewrite lookup_drop in Hj. apply lookup_take_Some in Hj as [Hj _].
    pose proof (NoDup_lookup _ _ _ _ Hnd Hc Hj). lia.
Qed.

(** X10: the namedtuple shape: each tuple yielded has exactly the header's fields,
    in order, with the values of its row. *)
Theorem to_namedtuple_fields (results : gen (list value)) (cols : list string)
    (i : nat) (tuple : list (string * value)) :
  yielded (Reader._to_namedtuple results cols) !! i = Some tuple ->
  valid_field_names cols = true
  /\ tuple.*1 = cols
  /\ yielded results !! i = Some tuple.*2.
Proof.
  unfold Reader._to_namedtuple. intros Hi.
  destruct (valid_field_names cols); [| discriminate].
  apply gen_for_yielded in Hi as (row & Hrow & Hconv).
  destruct (Nat.eqb_spec (length row) (length cols)) as [Hlen |]; [| discriminate].
  inversion Hconv; subst tuple.
  rewrite fst_zip, snd_zip by lia. auto.
Qed.

(** X11: a row that has not one value per field ends the namedtuple shape with a
    [TypeError], after the tuples of the rows before it. *)
Theorem to_namedtuple_wrong_length (pre : list (list value)) (row : list value)
    (rest : gen (list value)) (cols : list string) :
  valid_field_names cols = true ->
  Forall (fun r => length r = length cols) pre ->
  length row <> length cols ->
  Reader._to_namedtuple (gen_app pre (GYield row rest)) cols
  = gen_app (zip cols <$> pre) (GRaise TypeError).
Proof.
  intros Hvalid Hpre Hrow. unfold Reader._to_namedtuple. rewrite Hvalid.
  induction Hpre as [| r pre Hr Hpre IH]; simpl.
  - apply Nat.eqb_neq in Hrow. by rewrite Hrow.
  - apply Nat.eqb_eq in Hr. rewrite Hr. by rewrite IH.
Qed.

Lemma widest_ge (rows : list (list value)) (row : list value) :
  row ∈ rows -> (length row <= Reader.widest rows)%nat.
Proof.
  induction rows as [| r rows IH]; intros Hin; [inversion Hin |].
  simpl. apply elem_of_cons in Hin as [-> | Hin]; [lia |].
  specialize (IH Hin). lia.
Qed.

Lemma fillna_not_None (v : value) : Reader.fillna v <> VNone.
Proof. destruct v; discriminate. Qed.

(** X12: the dataframe shape: the generator was consumed to its normal end; the
    frame has the header as columns, one row per row yielded, indexed
    [0 .. n-1]; every row has one cell per column, whatever pandas makes of
    the columns, and no cell is [None]. *)
Theorem to_dataframe_shape (results : gen (list value)) (cols : list string)
    (df : Reader.DataFrame) :
  Reader._to_dataframe results cols = Return df ->
  ending results = None
  /\ Reader.df_columns df = cols
  /\ (Reader.df_rows df).*1 = seq 0 (length (yielded results))
  /\ Forall (fun cells => length cells = length cols /\ VNone ∉ cells)
            (Reader.df_rows df).*2.
Proof.
  unfold Reader._to_dataframe, consume. intros Hdf.
  destruct (ending results); [discriminate |].
  set (rows := yielded results) in *.
  destruct (negb (bool_decide (rows = [])) && negb (Reader.widest rows =? length cols)%nat);
    [discriminate |].
  inversion Hdf; subst df; clear Hdf. cbn [Reader.df_columns Reader.df_rows].
  match goal with
  | |- context [Reader.number_rows ?l] =>
      destruct (number_rows_spec l) as (Hn1 & Hn2 & _)
  end.
  rewrite length_map, length_seq in Hn1.
  repeat split; auto.
  rewrite Hn2. apply Forall_forall. intros cells Hcells.
  apply list_elem_of_fmap in Hcells as (i & -> & _).
  split.
  - by rewrite !length_map, length_seq.
  - intros Hin. apply list_elem_of_fmap in Hin as (column & Hv & _).
    symmetry in Hv. exact (fillna_not_None _ Hv).
Qed.

End Shapes.

Lemma to_namedtuple_fields_witness :
  let results := GYield [VStr "a.example"; VInt 1] (GYield [VStr "b.example"; VNone] GStop) in
  @valid_field_names (Toy.env []) ["host"; "hits"] = true
  /\ [("host", VStr "b.example"); ("hits", VNone)].*1 = ["host"; "hits"]
  /\ yielded results !! 1%nat = Some [("host", VStr "b.example"); ("hits", VNone)].*2.
Proof.
  intros results.
  exact (@to_namedtuple_fields (Toy.env []) results ["host"; "hits"] 1
           [("host", VStr "b.example"); ("hits", VNone)] eq_refl).
Defined.

Lemma to_namedtuple_wrong_length_witness :
  @Reader._to_namedtuple (Toy.env [])
    (gen_app [[VStr "a.example"; VInt 1]] (GYield [VStr "b.example"] GStop))
    ["host"; "hits"]
  = gen_app (zip ["host"; "hits"] <$> [[VStr "a.example"; VInt 1]]) (GRaise TypeError).
Proof.
  apply (@to_namedtuple_wrong_length (Toy.env [])).
  - reflexivity.
  - repeat constructor.
  - simpl. lia.
Defined.

Lemma to_dataframe_shape_witness :
  let results := GYield [VStr "a.example"; VInt 1] (GYield [VStr "b.example"] GStop) in
  let df := Reader.mk_DataFrame ["host"; "hits"]
              [(0%nat, [VStr "a.example"; VFloat (1 # 1)]);
               (1%nat, [VStr "b.example"; VNaN])] in
  @Reader._to_dataframe (Toy.env []) results ["host"; "hits"] = Return df
  /\ Forall (fun cells => length cells = 2%nat /\ VNone ∉ cells) (Reader.df_rows df).*2.
Proof.
  intros results df. split; [reflexivity |].
  exact (proj2 (proj2 (proj2
           (@to_dataframe_shape (Toy.env []) results ["host"; "hits"] df eq_refl)))).
Defined.

Section UnknownHeader.
Context `{Env}.

Lemma for_list_first_failure {A B : Type} (f : A -> outcome B) (pre post : list A)
    (a : A) (e : exn) :
  (forall x, x ∈ pre -> exists b, f x = Return b) ->
  f a = Raise e ->
  Reader.for_list f (pre ++ a :: post)%list = Raise e.
Proof.
  intros Hpre Ha. induction pre as [| x pre IH]; simpl.
  - by rewrite Ha.
  - destruct (Hpre x) as [b ->]; [left |].
    rewrite IH; [reflexivity |]. intros y Hy. apply Hpre. by right.
Qed.

(** X7: a header as long as the schema that has a name the schema lacks: the
    decoder raises [KeyError] for the first such name, after both requests,
    and yields nothing. *)
Theorem stream_unknown_header_name (linq_query : string) (start stop : date)
    (ts_format : string) (w w1 w2 : world)
    (type_dict : gmap string Reader.converter) (resp : response)
    (known unread : list string) (c : string) (records : gen (list string)) :
  Reader._get_types linq_query start ts_format w = (Return type_dict, w1) ->
  Reader._query linq_query start stop "csv" true None w1 = (Return resp, w2) ->
  next (Reader.csv_reader_gen (Reader._decode_results resp))
  = Return ((known ++ c :: unread)%list, records) ->
  length (known ++ c :: unread)%list = size type_dict ->
  (forall x, x ∈ known -> is_Some (type_dict !! x)) ->
  type_dict !! c = None ->
  Reader._stream linq_query start stop ts_format w = (Raise (KeyError c), w2).
Proof.
  intros Ht Hq Hn Hlen Hknown Hc.
  rewrite (stream_after_header _ _ _ _ _ _ _ _ _ _ _ Ht Hq Hn).
  apply Nat.eqb_eq in Hlen. rewrite Hlen. simpl.
  unfold Reader.lookup_types.
  rewrite (for_list_first_failure _ known unread c (KeyError c)); [reflexivity | |].
  - intros x Hx. destruct (Hknown x Hx) as [t ->]. simpl. eauto.
  - by rewrite Hc.
Qed.

End UnknownHeader.

Definition renamed_script : list response :=
  [RText "#host:str,hits:int8"; RLines ["host,count"; "a.example,1"]].

Lemma renamed_stream_parts :
  let E := Toy.env renamed_script in
  exists type_dict w1,
    @Reader._get_types E "from web" (DInt 10) "datetime" Toy.w0 = (Return type_dict, w1)
    /\ @Reader._query E "from web" (DInt 10) (DInt 20) "csv" true None w1
       = (Return (RLines ["host,count"; "a.example,1"]), ragged_world)
    /\ size type_dict = 2%nat
    /\ is_Some (type_dict !! "host")
    /\ type_dict !! "count" = None.
Proof.
  intros E.
  destruct (@Reader._get_types E "from web" (DInt 10) "datetime" Toy.w0)
    as [[type_dict | e |] w1] eqn:Ht.
  - exists type_dict, w1. split; [reflexivity |].
    pose proof Ht as Ht'.
    apply get_types_request_inv in Ht' as (s & Hs & ->).
    rewrite to_unix_int in Hs. inversion Hs; subst s.
    split; [vm_compute; reflexivity |].
    assert (size type_dict = 2%nat /\ (bool_decide (is_Some (type_dict !! "host")) = true)
            /\ type_dict !! "count" = None) as (H1 & H2 & H3).
    { assert (match @Reader._get_types E "from web" (DInt 10) "datetime" Toy.w0 with
              | (Return d, _) =>
                  size d = 2%nat /\ bool_decide (is_Some (d !! "host")) = true
                  /\ match d !! "count" with None => True | Some _ => False end
              | _ => False
              end) as Hrun by (vm_compute; auto).
      rewrite Ht in Hrun. destruct Hrun as (H1 & H2 & H3).
      repeat split; auto. destruct (type_dict !! "count"); [contradiction | reflexivity]. }
    repeat split; auto. by apply bool_decide_eq_true in H2.
  - exfalso.
    assert (match @Reader._get_types E "from web" (DInt 10) "datetime" Toy.w0 with
            | (Return _, _) => True | _ => False end) as Hrun by (vm_compute; exact I).
    by rewrite Ht in Hrun.
  - exfalso.
    assert (match @Reader._get_types E "from web" (DInt 10) "datetime" Toy.w0 with
            | (Return _, _) => True | _ => False end) as Hrun by (vm_compute; exact I).
    by rewrite Ht in Hrun.
Qed.

Lemma stream_unknown_header_name_witness :
  @Reader._stream (Toy.env renamed_script) "from web" (DInt 10) (DInt 20) "datetime" Toy.w0
  = (Raise (KeyError "count"), ragged_world).
Proof.
  destruct renamed_stream_parts as (type_dict & w1 & Ht & Hq & Hsize & Hhost & Hcount).
  apply (@stream_unknown_header_name (Toy.env renamed_script) "from web" (DInt 10)
           (DInt 20) "datetime" Toy.w0 w1 ragged_world type_dict
           (RLines ["host,count"; "a.example,1"]) ["host"] [] "count"
           (GYield ["a.example"; "1"] GStop) Ht Hq eq_refl).
  - by rewrite Hsize.
  - intros x Hx. apply list_elem_of_singleton in Hx as ->. exact Hhost.
  - exact Hcount.
Defined.

(** ** Liveness of the search for [p] *)

Section SearchLiveness.
Context `{Env}.









End SearchLiveness.


(** ** Retries of the sampler *)

Section Retries.
Context `{Env}.

Lemma sample_loop_requests (fuel : nat) (sample_query : string) (start stop : date)
    (k : Z) (w w' : world) (t : Reader.table) :
  Reader.sample_loop fuel sample_query start stop k w = (Return t, w') ->
  exists (reqs : list request) (attempts : nat),
    sent w' = (sent w ++ reqs)%list
    /\ length reqs = (2 * attempts)%nat
    /\ (1 <= attempts <= fuel)%nat
    /\ Forall (fun r => req_query r = sample_query) reqs
    /\ warned w' = warned w.
Proof.
  revert w. induction fuel as [| fuel IH]; simpl; intros w Hl; [discriminate |].
  apply bind_Return in Hl as (t0 & w1 & Hq & Hl).
  apply query_Return_inv in Hq as (cols & rows & s & e & _ & _ & _ & ->).
  destruct t0 as [| | | df]; try discriminate.
  destruct (k <=? Reader.shape0 df).
  - destruct (Reader.df_sample (Z.to_nat k) df) as [smp | |]; try discriminate.
    inversion Hl; subst; clear Hl.
    eexists _, 1%nat. simpl. repeat split; eauto with lia.
  - apply IH in Hl as (reqs & attempts & Hsent & Hlen & Hatt & Hall & Hwarn).
    simpl in Hsent, Hwarn.
    eexists _, (S attempts). rewrite Hsent, <- app_assoc.
    repeat split; eauto with lia.
    + rewrite length_app, Hlen. simpl. lia.
    + apply Forall_app. split; [| exact Hall]. repeat constructor.
Qed.

(** X18: a sampling call that returns has, after the count query, sent nothing
    but the sampling query: two requests per attempt, at least one attempt,
    every one with the same text, hence the same [p]; and it has emitted no
    warning. *)
Theorem randomSample_retries_same_query (fuel : nat) (linq_query : string)
    (start stop : date) (k : Z) (w w1 w' : world) (size : value) (n : Q)
    (t : Reader.table) :
  Reader.table_size linq_query start stop w = (Return size, w1) ->
  Reader.as_number size = Return n ->
  0 < k ->
  (inject_Z k < n)%Q ->
  Reader.randomSample fuel linq_query start stop (NInt k) w = (Return t, w') ->
  exists (p : Q) (reqs : list request) (attempts : nat),
    Reader._find_optimal_p fuel n (inject_Z k) (99 # 100) = Return p
    /\ sent w' = (sent w1 ++ reqs)%list
    /\ length reqs = (2 * attempts)%nat
    /\ (1 <= attempts <= fuel)%nat
    /\ Forall (fun r => req_query r = Reader.sample_query linq_query p) reqs
    /\ warned w' = warned w.
Proof.
  intros Hsize Hn Hk Hlt Hret.
  unfold Reader.randomSample in Hret; simpl in Hret.
  assert ((k <? 1) = false) as Hk1 by (apply Z.ltb_ge; lia).
  rewrite Hk1 in Hret; simpl in Hret.
  unfold bind at 1 in Hret. rewrite Hsize in Hret.
  unfold bind at 1 in Hret. unfold lift at 1 in Hret. rewrite Hn in Hret.
  assert (Qle_bool n (inject_Z k) = false) as Hnk.
  { destruct (Qle_bool n (inject_Z k)) eqn:Hle; [| reflexivity].
    apply Qle_bool_iff in Hle. exfalso. exact (Qlt_not_le _ _ Hlt Hle). }
  rewrite Hnk in Hret.
  apply bind_Return in Hret as (p & wa & Hp & Hloop).
  apply lift_Return in Hp as [Hp ->].
  apply sample_loop_requests in Hloop as (reqs & attempts & Hs & Hl & Ha & Hall & Hw).
  apply table_size_inv in Hsize as (s0 & e0 & Hw1).
  exists p, reqs, attempts. repeat split; auto with lia.
  rewrite Hw, Hw1. reflexivity.
Qed.

End Retries.

(** A first answer of 48 rows is short of 49; the second has 50. *)
Definition retry_script : list response :=
  [RText "#count:int8"; RLines ["count"; "50"];
   RText "#host:str,hits:int8";
   RLines ("host,hits" :: replicate 48 "a.example,1");
   RText "#host:str,hits:int8";
   RLines ("host,hits" :: replicate 50 "a.example,1")].

Lemma retry_table_size :
  @Reader.table_size (Toy.env retry_script) "from web" (DInt 10) (DInt 20) Toy.w0
  = (Return (VInt 50),
     mk_world
       [mk_request "from web group select count() as count" (Some 9) (Some 10)
          "json/compact" false (Some 1);
        mk_request "from web group select count() as count" (Some 10) (Some 20)
          "csv" true None] []).
Proof. vm_compute. reflexivity. Qed.

Lemma randomSample_retries_same_query_witness :
  let E := Toy.env retry_script in
  exists (t : Reader.table) (w' : world) (reqs : list request),
    @Reader.randomSample E 30 "from web" (DInt 10) (DInt 20) (NInt 49) Toy.w0
    = (Return t, w')
    /\ length (sent w') = 6%nat
    /\ drop 2 (sent w') = reqs
    /\ exists p, Forall (fun r => req_query r = @Reader.sample_query E "from web" p) reqs.
Proof.
  intros E.
  destruct (@Reader.randomSample E 30 "from web" (DInt 10) (DInt 20) (NInt 49) Toy.w0)
    as [[t | e |] w'] eqn:Hret.
  - destruct (@randomSample_retries_same_query E 30 "from web" (DInt 10) (DInt 20) 49
                Toy.w0 _ w' (VInt 50) (inject_Z 50) t retry_table_size eq_refl
                ltac:(lia) ltac:(reflexivity) Hret)
      as (p & reqs & attempts & _ & Hs & _ & _ & Hall & _).
    exists t, w', reqs. split; [reflexivity |].
    assert (match @Reader.randomSample E 30 "from web" (DInt 10) (DInt 20) (NInt 49) Toy.w0
            with (_, w) => length (sent w) = 6%nat end) as Hlen
      by (vm_compute; reflexivity).
    rewrite Hret in Hlen. split; [exact Hlen |].
    split; [by rewrite Hs | eauto].
  - vm_compute in Hret. discriminate.
  - vm_compute in Hret. discriminate.
Defined.

(** ** Sampling a continuous query *)

Section Continuous.
Context `{Env} `{Printing}.

Lemma dataframe_query_needs_stop (q : string) (start : date) (ts_format : string)
    (w w' : world) (t : Reader.table) :
  Reader.query q start DNone "dataframe" ts_format w <> (Return t, w').
Proof.
  intros Hq. apply query_Return_inv in Hq as (cols & rows & s & e & _ & _ & Hguard & _).
  discriminate.
Qed.

Lemma randomSample_needs_stop (fuel : nat) (q : string) (start : date)
    (sample_size : number) (w w' : world) (t : Reader.table) :
  Reader.randomSample fuel q start DNone sample_size w <> (Return t, w').
Proof.
  intros Hret. unfold Reader.randomSample in Hret.
  destruct (Reader.less_than_one sample_size || negb (Reader.isinstance_int sample_size));
    [discriminate |].
  destruct sample_size as [k | x]; [| discriminate].
  apply bind_Return in Hret as (size & w1 & _ & Hret).
  apply bind_Return in Hret as (n & w2 & _ & Hret).
  destruct (Qle_bool n (inject_Z k)).
  - apply bind_Return in Hret as (u & w3 & _ & Hret).
    exact (dataframe_query_needs_stop _ _ _ _ _ _ Hret).
  - apply bind_Return in Hret as (p & w3 & _ & Hret).
    apply sample_loop_inv in Hret as (df & s & w0 & Hq & _).
    exact (dataframe_query_needs_stop _ _ _ _ _ _ Hq).
Qed.

(** X19: neither sampler can return on a continuous query: with [stop = None]
    every path of [randomSample], and so of [population_sample], ends in the
    dataframe query, which the guard of [query] refuses. *)
Theorem samplers_need_stop (fuel : nat) (q column : string) (start : date)
    (sample_size : number) (w w' : world) (t : Reader.table) :
  Reader.randomSample fuel q start DNone sample_size w <> (Return t, w')
  /\ Reader.population_sample fuel q start DNone column sample_size w <> (Return t, w').
Proof.
  split; [apply randomSample_needs_stop |].
  intros Hret. unfold Reader.population_sample in Hret.
  apply bind_Return in Hret as (t0 & w1 & Hs & _).
  exact (randomSample_needs_stop _ _ _ _ _ _ _ Hs).
Qed.

(** ** The stratified sampler *)

Lemma column_items_length (df : Reader.DataFrame) (column : string)
    (population : list string) :
  Reader.column_items df column = Return population ->
  Reader.occurrences column (Reader.df_columns df) = 1%nat ->
  length population = length (Reader.df_rows df).
Proof.
  unfold Reader.column_items. intros Hitems Hone. rewrite Hone in Hitems.
  destruct (Reader.column_index column (Reader.df_columns df)); inversion Hitems.
  by rewrite length_map.
Qed.

(** Both branches of [randomSample] return a frame. *)
Lemma randomSample_returns_frame (fuel : nat) (q : string) (start stop : date)
    (sample_size : number) (w w' : world) (t : Reader.table) :
  Reader.randomSample fuel q start stop sample_size w = (Return t, w') ->
  exists df, t = Reader.OfDataFrame df.
Proof.
  intros Hret. unfold Reader.randomSample in Hret.
  destruct (Reader.less_than_one sample_size || negb (Reader.isinstance_int sample_size));
    [discriminate |].
  destruct sample_size as [k | x]; [| discriminate].
  apply bind_Return in Hret as (size & w1 & _ & Hret).
  apply bind_Return in Hret as (n & w2 & _ & Hret).
  destruct (Qle_bool n (inject_Z k)).
  - apply bind_Return in Hret as (u & w3 & _ & Hret).
    apply query_Return_inv in Hret as (cols & rows & s & e & _ & Hp & _).
    apply project_dataframe in Hp as (df & -> & _). eauto.
  - apply bind_Return in Hret as (p & w3 & _ & Hret).
    apply sample_loop_inv in Hret as (df & s & w0 & _ & _ & _ & ->). eauto.
Qed.


End Continuous.

Section StratifiedSize.
Context `{Env} `{Printing}.

Lemma randomSample_sampled_rows (fuel : nat) (q : string) (start stop : date)
    (k : Z) (w w1 w' : world) (size : value) (n : Q) (out : Reader.DataFrame) :
  sample_draws_distinct ->
  Reader.table_size q start stop w = (Return size, w1) ->
  Reader.as_number size = Return n ->
  0 < k ->
  (inject_Z k < n)%Q ->
  Reader.randomSample fuel q start stop (NInt k) w = (Return (Reader.OfDataFrame out), w') ->
  length (Reader.df_rows out) = Z.to_nat k.
Proof.
  intros Hlaw Hsize Hn Hk Hlt Hret.
  unfold Reader.randomSample in Hret; simpl in Hret.
  assert ((k <? 1) = false) as Hk1 by (apply Z.ltb_ge; lia).
  rewrite Hk1 in Hret; simpl in Hret.
  unfold bind at 1 in Hret. rewrite Hsize in Hret.
  unfold bind at 1 in Hret. unfold lift at 1 in Hret. rewrite Hn in Hret.
  assert (Qle_bool n (inject_Z k) = false) as Hnk.
  { destruct (Qle_bool n (inject_Z k)) eqn:Hle; [| reflexivity].
    apply Qle_bool_iff in Hle. exfalso. exact (Qlt_not_le _ _ Hlt Hle). }
  rewrite Hnk in Hret.
  apply bind_Return in Hret as (p & wa & _ & Hloop).
  apply sample_loop_inv in Hloop as (df & s & w0 & Hq & _ & Hs & Hout).
  inversion Hout; subst out.
  apply query_Return_inv in Hq as (cols & rows & s0 & e0 & _ & Hproj & _ & _).
  apply project_dataframe in Hproj as (df' & Hdf & _ & _ & Hidx).
  inversion Hdf; subst df'.
  by destruct (sample_sort_reset df s (Z.to_nat k) Hlaw Hidx Hs) as (_ & Hl & _).
Qed.

(** X21: with [0 < k] below the number of groups the count gave, the membership
    set of a stratified sample that returns has exactly [k] entries, provided
    one column of the grouped result bears the name of the column. *)
Theorem population_sample_set_size (fuel : nat) (q column : string) (start stop : date)
    (k : Z) (w w1 w' : world) (size : value) (n : Q) (t : Reader.table) :
  sample_draws_distinct ->
  Reader.table_size (Reader.population_query q column) start stop w = (Return size, w1) ->
  Reader.as_number size = Return n ->
  0 < k ->
  (inject_Z k < n)%Q ->
  Reader.population_sample fuel q start stop column (NInt k) w = (Return t, w') ->
  exists (groups : Reader.DataFrame) (population : list string) (w2 : world),
    Reader.randomSample fuel (Reader.population_query q column) start stop (NInt k) w
    = (Return (Reader.OfDataFrame groups), w2)
    /\ Reader.column_items groups column = Return population
    /\ Forall (fun r => req_query r = Reader.membership_query q column population)
              (drop (length (sent w2)) (sent w'))
    /\ (Reader.occurrences column (Reader.df_columns groups) = 1%nat ->
        Z.of_nat (length population) = k).
Proof.
  intros Hlaw Hsize Hn Hk Hlt Hret. unfold Reader.population_sample in Hret.
  apply bind_Return in Hret as (t0 & w2 & Hs & Hret).
  destruct (randomSample_returns_frame _ _ _ _ _ _ _ _ Hs) as [groups ->].
  apply bind_Return in Hret as (population & w3 & Hitems & Hq).
  apply lift_Return in Hitems as [Hitems ->].
  apply query_Return_inv in Hq as (cols & rows & s & e & _ & _ & _ & ->).
  exists groups, population, w2. repeat split; auto.
  - simpl. rewrite drop_app_length. repeat constructor.
  - intros Hone. rewrite (column_items_length groups column _ Hitems Hone).
    rewrite (randomSample_sampled_rows _ _ _ _ _ _ _ _ _ _ _ Hlaw Hsize Hn Hk Hlt Hs).
    lia.
Qed.

End StratifiedSize.

(** The text of a cell, as far as the runs below need it. *)
Definition toy_printing : Printing := {|
  value_str := fun v =>
    match v with
    | VStr s => s
    | VInt z => NilEmpty.string_of_int (Z.to_int z)
    | VFloat (z # 1) => NilEmpty.string_of_int (Z.to_int z) ++ ".0"
    | VBool true => "True"
    | VBool false => "False"
    | VNone => "None"
    | VNaN => "nan"
    | _ => "?"
    end
|}.



(** Groups by a column of numbers with a missing cell: the frame holds
    floats, and the set of the second query is written from them. *)
Example strata_of_numbers :
  let script := [RText "#count:int8"; RLines ["count"; "3"];
                 RText "#port:int8,n:int8"; RLines ["port,n"; "80,1"; ",2"; "443,3"];
                 RText "#port:int8"; RLines ["port"; "80"]] in
  map req_query
    (drop 4 (sent (@Reader.population_sample (Toy.env script) toy_printing 10 "from web"
                     (DInt 10) (DInt 20) "port" (NInt 5) Toy.w0).2))
  = [Reader.membership_query "from web" "port" ["80.0"; "nan"; "443.0"];
     Reader.membership_query "from web" "port" ["80.0"; "nan"; "443.0"]].
Proof. vm_compute. reflexivity. Qed.


(** Fifty groups by the count, a sample of 49. *)
Definition strata_sample_script : list response :=
  [RText "#count:int8"; RLines ["count"; "50"];
   RText "#host:str"; RLines ("host" :: replicate 50 "a.example");
   RText "#host:str,hits:int8"; RLines ["host,hits"; "a.example,1"]].

Lemma strata_table_size :
  @Reader.table_size (Toy.env strata_sample_script)
    (Reader.population_query "from web" "host") (DInt 10) (DInt 20) Toy.w0
  = (Return (VInt 50),
     mk_world
       [mk_request "from web group by host group select count() as count" (Some 9)
          (Some 10) "json/compact" false (Some 1);
        mk_request "from web group by host group select count() as count" (Some 10)
          (Some 20) "csv" true None] []).
Proof. vm_compute. reflexivity. Qed.

Lemma population_sample_set_size_witness :
  let E := Toy.env strata_sample_script in
  exists (t : Reader.table) (w' : world) (groups : Reader.DataFrame)
         (population : list string),
    @Reader.population_sample E toy_printing 30 "from web" (DInt 10) (DInt 20) "host"
      (NInt 49) Toy.w0 = (Return t, w')
    /\ @Reader.column_items toy_printing groups "host" = Return population
    /\ (Reader.occurrences "host" (Reader.df_columns groups) = 1%nat ->
        Z.of_nat (length population) = 49).
Proof.
  intros E.
  destruct (@Reader.population_sample E toy_printing 30 "from web" (DInt 10) (DInt 20)
              "host" (NInt 49) Toy.w0) as [[t | e |] w'] eqn:Hret.
  - destruct (@population_sample_set_size E toy_printing 30 "from web" "host" (DInt 10)
                (DInt 20) 49 Toy.w0 _ w' (VInt 50) (inject_Z 50) t
                (toy_draws_distinct strata_sample_script) strata_table_size eq_refl
                ltac:(lia) ltac:(reflexivity) Hret)
      as (groups & population & w2 & _ & Hitems & _ & Hlen).
    exists t, w', groups, population. auto.
  - vm_compute in Hret. discriminate.
  - vm_compute in Hret. discriminate.
Defined.

(** ** Credentials *)

Section Credentials.
Context `{Files}.

(** X22: arguments that already make a complete set of credentials are kept as
    they are, and the credentials file has no say. *)
Theorem init_keeps_complete_arguments (profile : string)
    (api_key api_secret end_point oauth_token jwt credential_path : option string) :
  let path := match credential_path with
              | None => home_credentials
              | Some path => resolve_path path
              end in
  Reader.complete
    (Reader.mk_attributes profile api_key api_secret end_point oauth_token jwt path) = true ->
  Reader.__init__ profile api_key api_secret end_point oauth_token jwt credential_path
  = Return (Reader.mk_attributes profile api_key api_secret end_point oauth_token jwt path).
Proof.
  intros path Hc. unfold Reader.__init__. fold path. rewrite Hc. simpl.
  rewrite Hc. reflexivity.
Qed.

(** The attributes after the profile has been read. *)
Definition from_profile (profile : string) (jwt : option string) (path : string)
    : Reader.attributes :=
  let config := config_read path in
  let end_point := get_option config profile "end_point" in
  Reader.mk_attributes profile
    (get_option config profile "api_key")
    (get_option config profile "api_secret")
    (match end_point with
     | Some "USA" => Some "https://apiv2-us.devo.com/search/query"
     | Some "EU" => Some "https://apiv2-eu.devo.com/search/query"
     | e => e
     end)
    (get_option config profile "oauth_token")
    jwt path.

Lemma read_profile_from_profile (a : Reader.attributes) :
  has_section (config_read (Reader.credential_path a)) (Reader.profile a) = true ->
  Reader._read_profile a
  = from_profile (Reader.profile a) (Reader.jwt a) (Reader.credential_path a).
Proof. intros Hsec. unfold Reader._read_profile. rewrite Hsec. reflexivity. Qed.

(** X23: when the arguments are not complete and the file has the profile, the
    key, the secret, the end point and the token all come from the profile,
    whatever was passed for them: arguments that were given are dropped, and
    two calls that differ only in them end alike. Only [jwt] is kept. *)
Theorem init_profile_replaces_arguments (profile : string)
    (api_key api_secret end_point oauth_token jwt credential_path : option string)
    (api_key' api_secret' end_point' oauth_token' : option string) :
  let path := match credential_path with
              | None => home_credentials
              | Some path => resolve_path path
              end in
  Reader.complete
    (Reader.mk_attributes profile api_key api_secret end_point oauth_token jwt path) = false ->
  Reader.complete
    (Reader.mk_attributes profile api_key' api_secret' end_point' oauth_token' jwt path)
  = false ->
  has_section (config_read path) profile = true ->
  Reader.__init__ profile api_key api_secret end_point oauth_token jwt credential_path
  = (if Reader.complete (from_profile profile jwt path)
     then Return (from_profile profile jwt path)
     else Raise (Exception Reader.missing_credentials))
  /\ Reader.__init__ profile api_key' api_secret' end_point' oauth_token' jwt credential_path
     = Reader.__init__ profile api_key api_secret end_point oauth_token jwt credential_path.
Proof.
  intros path Hc Hc' Hsec.
  assert (forall k s e t,
             Reader.complete (Reader.mk_attributes profile k s e t jwt path) = false ->
             Reader.__init__ profile k s e t jwt credential_path
             = (if Reader.complete (from_profile profile jwt path)
                then Return (from_profile profile jwt path)
                else Raise (Exception Reader.missing_credentials))) as Hinit.
  { intros k s e t Hk. unfold Reader.__init__. fold path. rewrite Hk.
    cbn [negb]. rewrite read_profile_from_profile by exact Hsec.
    cbn [Reader.profile Reader.jwt Reader.credential_path].
    destruct (Reader.complete (from_profile profile jwt path)); reflexivity. }
  split; [by apply Hinit |]. by rewrite !Hinit.
Qed.

(** X24: without the profile in the file, arguments that are not complete are an
    error. *)
Theorem init_without_profile (profile : string)
    (api_key api_secret end_point oauth_token jwt credential_path : option string) :
  let path := match credential_path with
              | None => home_credentials
              | Some path => resolve_path path
              end in
  Reader.complete
    (Reader.mk_attributes profile api_key api_secret end_point oauth_token jwt path) = false ->
  has_section (config_read path) profile = false ->
  Reader.__init__ profile api_key api_secret end_point oauth_token jwt credential_path
  = Raise (Exception Reader.missing_credentials).
Proof.
  intros path Hc Hsec. unfold Reader.__init__. fold path. rewrite Hc. simpl.
  unfold Reader._read_profile. simpl. rewrite Hsec, Hc. reflexivity.
Qed.

End Credentials.

(** A credentials file whose profile [default] gives only the end point, by
    its short name. *)
Definition toy_files : Files := {|
  home_credentials := "/home/user/.devo_credentials";
  resolve_path := fun path => path;
  config_read := fun path =>
    if String.eqb path "/home/user/.devo_credentials"
    then mk_config (fun section => String.eqb section "default")
           (fun section option =>
              if String.eqb section "default" && String.eqb option "end_point"
              then Some "USA" else None)
    else mk_config (fun _ => false) (fun _ _ => None)
|}.

Lemma init_keeps_complete_arguments_witness :
  @Reader.__init__ toy_files "default" (Some "key") (Some "secret")
    (Some "https://apiv2-eu.devo.com/search/query") None None None
  = Return (Reader.mk_attributes "default" (Some "key") (Some "secret")
              (Some "https://apiv2-eu.devo.com/search/query") None None
              "/home/user/.devo_credentials").
Proof.
  exact (@init_keeps_complete_arguments toy_files "default" (Some "key") (Some "secret")
           (Some "https://apiv2-eu.devo.com/search/query") None None None eq_refl).
Defined.

(** The key and the secret are passed, the end point is left to the profile:
    the profile is read, the key and the secret are replaced by what the
    profile has for them, which is nothing, and the call fails. *)
Lemma init_profile_replaces_arguments_witness :
  @Reader.__init__ toy_files "default" (Some "key") (Some "secret") None None None None
  = Raise (Exception Reader.missing_credentials)
  /\ @Reader.__init__ toy_files "default" None None None None None None
     = @Reader.__init__ toy_files "default" (Some "key") (Some "secret") None None None None.
Proof.
  exact (@init_profile_replaces_arguments toy_files "default" (Some "key") (Some "secret")
           None None None None None None None None eq_refl eq_refl eq_refl).
Defined.

Lemma init_without_profile_witness :
  @Reader.__init__ toy_files "staging" (Some "key") None None None None None
  = Raise (Exception Reader.missing_credentials).
Proof.
  exact (@init_without_profile toy_files "staging" (Some "key") None None None None None
           eq_refl eq_refl).
Defined.

(** The profile gives a token and the short name of the end point. *)
Example init_expands_short_name :
  let files := {|
    home_credentials := "/home/user/.devo_credentials";
    resolve_path := fun path => path;
    config_read := fun _ =>
      mk_config (fun _ => true)
        (fun _ option =>
           if String.eqb option "end_point" then Some "EU"
           else if String.eqb option "oauth_token" then Some "token" else None)
  |} in
  @Reader.__init__ files "default" None None None None None None
  = Return (Reader.mk_attributes "default" None None
              (Some "https://apiv2-eu.devo.com/search/query") (Some "token") None
              "/home/user/.devo_credentials").
Proof. reflexivity. Qed.

(** ** The pipeline of [api.py] *)

Section OlderPipeline.
Context `{Env} `{ApiEnv}.

(** X25: in the older type map a known type sends the empty string to [None],
    and the fallback of an unknown type tag is the bare [str]: it returns
    every string as it is, the empty one included. *)
Theorem api_type_map_default_keeps_empty (tag v : string) :
  (tag ∈ known_tags -> Reader.dd_get API._make_type_map tag "" = Return VNone)
  /\ (tag ∉ known_tags -> Reader.dd_get API._make_type_map tag v = Return (VStr v)).
Proof.
  unfold Reader.dd_get, API._make_type_map; simpl. rewrite lookup_fmap. split.
  - intros Hin. unfold known_tags in Hin.
    repeat (apply elem_of_cons in Hin as [-> | Hin]; [reflexivity |]).
    inversion Hin.
  - intros Hn. by rewrite (funcs_unknown _ _ Hn).
Qed.



(** X26: the checks of the older [query] are assertions; they too come before
    anything is posted. *)
Theorem api_query_asserts_before_any_post (linq_query : string) (start stop : date)
    (output : string) (posts : list http_request) :
  output ∉ Reader.valid_outputs \/ (output = "dataframe" /\ stop = DNone) ->
  exists msg,
    API.query linq_query start stop output posts = (Raise (AssertionError msg), posts).
Proof.
  intros [Hout | [-> ->]]; unfold API.query.
  - rewrite bool_decide_eq_false_2 by assumption. simpl. unfold API.araise. eauto.
  - rewrite bool_decide_eq_true_2 by (unfold Reader.valid_outputs; set_solver).
    simpl. unfold API.araise. eauto.
Qed.

(** The text that is sent: the content of the file for a name in [.linq],
    the argument itself otherwise. *)
Definition query_text (linq_query : string) : option string :=
  if endswith linq_query ".linq" then read_file linq_query else Some linq_query.




(** X28: the older decoder knows one failure status: it raises exactly when the
    first line is a JSON object whose status equals 500. A first line with
    any other status, or none, is decoded and handed on as the header line,
    not stripped. *)
Theorem api_decode_only_status_500 (first : string) (rest : list string) :
  (API._decode_results (API.Lines (first :: rest)) = GRaise (AssertionError "Query Error")
   <-> exists members status,
         json_loads first = Some (JObj members)
         /\ Reader.jget "status" members = Some status
         /\ API.equals_int status 500 = true)
  /\ (forall l,
        API.query_error first = false ->
        utf8_decode first = Some l ->
        API._decode_results (API.Lines (first :: rest))
        = GYield l (gen_for Reader.decode (gen_of_list rest))).
Proof.
  assert (API.query_error first = true
          <-> exists members status,
                json_loads first = Some (JObj members)
                /\ Reader.jget "status" members = Some status
                /\ API.equals_int status 500 = true) as Herr.
  { unfold API.query_error. split.
    - destruct (json_loads first) as [[| | | | | members] |]; try discriminate.
      destruct (Reader.jget "status" members) as [status |] eqn:Hst; [| discriminate].
      intros Hs. exists members, status. auto.
    - intros (members & status & -> & -> & Hs). exact Hs. }
  split.
  - rewrite <- Herr. simpl.
    destruct (API.query_error first); [tauto |].
    split; [| discriminate].
    unfold Reader.decode. destruct (utf8_decode first); simpl; discriminate.
  - intros l Hq Hl. simpl. rewrite Hq. unfold Reader.decode at 1. by rewrite Hl.
Qed.

(** X29: the older sampler checks nothing and divides the sample size by the
    count: on a count of zero every call ends in [ZeroDivisionError] after the
    count query, whatever the sample size. *)
Theorem api_randomSample_empty_table (fuel : nat) (linq_query : string)
    (start stop : date) (sample_size : Z) (posts posts' : list http_request)
    (row : list value) (rest : gen (list value)) (count : value) :
  API.query (Reader.size_query linq_query) start stop "list" posts
  = (Return (Reader.OfLists (GYield (count :: row) rest)), posts') ->
  Reader.as_number count = Return 0%Q ->
  API.randomSample fuel linq_query start stop sample_size posts
  = (Raise ZeroDivisionError, posts').
Proof.
  intros Hq Hcount. unfold API.randomSample. unfold API.abind at 1. rewrite Hq.
  cbn [next Reader.first_cell head Reader.of_option].
  unfold API.abind, API.alift. rewrite Hcount. reflexivity.
Qed.

End OlderPipeline.

(** An [API] object whose i-th post gets the i-th answer of a script. *)
Definition toy_api (script : list http_response) : ApiEnv := {|
  api_key := "key";
  api_secret := "secret";
  end_point := "https://api-us.logtrust.com/search/query";
  read_file := fun _ => None;
  json_dumps := fun query _ _ mode _ => mode ++ ":" ++ query;
  int_str := fun _ => "0";
  hmac_sha256 := fun _ msg => msg;
  requests_post := fun before _ => nth_error script (length before)
|}.

Lemma api_query_asserts_before_any_post_witness :
  exists msg,
    @API.query (Toy.env []) (toy_api []) "from web" (DInt 10) DNone "dataframe" []
    = (Raise (AssertionError msg), []).
Proof.
  apply (@api_query_asserts_before_any_post (Toy.env []) (toy_api [])).
  right. split; reflexivity.
Defined.




Definition api_empty_script : list http_response :=
  [mk_http_response "#count:int8" []; mk_http_response "" ["count"; "0"]].

Lemma api_empty_count :
  exists posts',
    @API.query (Toy.env []) (toy_api api_empty_script)
      (Reader.size_query "from web") (DInt 10) (DInt 20) "list" []
    = (Return (Reader.OfLists (GYield [VInt 0] GStop)), posts').
Proof. eexists. vm_compute. reflexivity. Qed.

Lemma api_randomSample_empty_table_witness :
  exists posts',
    @API.randomSample (Toy.env []) (toy_api api_empty_script) 10 "from web" (DInt 10)
      (DInt 20) 5 []
    = (Raise ZeroDivisionError, posts').
Proof.
  destruct api_empty_count as [posts' Hrun]. exists posts'.
  exact (@api_randomSample_empty_table (Toy.env []) (toy_api api_empty_script) 10
           "from web" (DInt 10) (DInt 20) 5 [] posts' [] GStop (VInt 0) Hrun eq_refl).
Defined.

(** The same empty table under the sampler of [reader.py]: the sample is at
    least the count, so the full table is returned after a warning and
    nothing is divided. *)
Example reader_randomSample_empty_table :
  exists w',
    @Reader.randomSample
      (Toy.env [RText "#count:int8"; RLines ["count"; "0"];
                RText "#host:str"; RLines ["host"]])
      10 "from web" (DInt 10) (DInt 20) (NInt 5) Toy.w0
    = (Return (Reader.OfDataFrame (Reader.mk_DataFrame ["host"] [])), w')
    /\ warned w' = [Reader.full_table_warning].
Proof. eexists. vm_compute. split; reflexivity. Qed.

(** ** Numbers as dates, and errors that wait *)

Section Numbers.
Context `{Env}.

(** X14: a number is taken as the epoch it is: an [int] comes back unchanged, or
    times 1000 with [milliseconds]; a [float] is cut toward zero, so that the
    part cut off is smaller than one and has the sign of the number. *)
Theorem to_unix_numbers (z : Z) (a : Z) (b : positive) (milliseconds : bool) :
  Reader._to_unix (DInt z) milliseconds
  = Return (Some (if milliseconds then z * 1000 else z))
  /\ exists r,
       Reader._to_unix (DFloat (a # b)) false = Return (Some r)
       /\ a = r * Z.pos b + Z.rem a (Z.pos b)
       /\ Z.abs (Z.rem a (Z.pos b)) < Z.pos b
       /\ 0 <= Z.rem a (Z.pos b) * a.
Proof.
  split.
  - reflexivity.
  - exists (int_of_float (a # b)). split; [reflexivity |].
    apply int_of_float_truncates.
Qed.

(** X8: what the list shape leaves to the consumer, the dataframe shape raises at
    once: when the rows of a bounded query end in an exception, the same
    query asked for a dataframe raises that exception, after the same two
    requests. *)
Theorem dataframe_raises_what_list_defers (q : string) (start stop : date)
    (ts_format : string) (w w' : world) (rows : gen (list value)) (e : exn) :
  Reader.query q start stop "list" ts_format w = (Return (Reader.OfLists rows), w') ->
  ending rows = Some e ->
  is_None stop = false ->
  Reader.query q start stop "dataframe" ts_format w = (Raise e, w').
Proof.
  intros Hlist Hend Hstop.
  apply query_Return_inv in Hlist as (cols & rows' & s & e0 & Hs & Hp & _ & _).
  unfold Reader.project in Hp; simpl in Hp. inversion Hp; subst.
  unfold Reader._to_list in Hend.
  unfold Reader.query.
  rewrite bool_decide_eq_true_2 by (unfold Reader.valid_outputs; set_solver).
  simpl. rewrite Hstop. unfold bind. rewrite Hs. unfold lift, Reader.project; simpl.
  unfold Reader._to_dataframe, consume. by rewrite Hend.
Qed.

End Numbers.

Lemma to_unix_not_converted_witness :
  let d := mk_datetime 2021 3 4 5 6 7 500000 (Some 3600) in
  wall_us d = 1614834367500000
  /\ @Reader._to_unix (Toy.env []) (DDatetime d) false
     = Return (Some (int_of_float (@datetime_timestamp (Toy.env []) d) + 3600)).
Proof.
  intros d.
  assert (wall_us d = 1614834367500000) as Hw by reflexivity.
  split; [exact Hw |].
  apply (@to_unix_not_converted (Toy.env []) d 3600 eq_refl); rewrite Hw; lia.
Defined.

Lemma type_map_typed_witness :
  exists type_map,
    @Reader._make_type_map (Toy.env []) "datetime" = Return type_map
    /\ Reader.dd_get type_map "bool" "True" = Return (VBool false)
    /\ Reader.dd_get type_map "str" "True" = Return (VStr "True").
Proof.
  eexists. split; [reflexivity |].
  destruct (@type_map_typed (Toy.env []) "datetime" _ "True" eq_refl eq_refl)
    as (_ & _ & _ & _ & Hbool & Hstr).
  split; [exact Hbool | exact Hstr].
Defined.

Lemma toy_candidate_passes :
  @Reader.tail_ok (Toy.env []) (inject_Z 10000) (inject_Z 9000) (99 # 100)
    (candidate (inject_Z 9000 / inject_Z 10000)%Q 8) = true.
Proof. vm_compute. reflexivity. Qed.

Lemma find_optimal_p_returns_witness :
  exists p,
    @Reader._find_optimal_p (Toy.env []) 9 (inject_Z 10000) (inject_Z 9000) (99 # 100)
    = Return p.
Proof.
  exact (@find_optimal_p_returns (Toy.env []) 9 10000 9000 8 ltac:(lia)
           toy_candidate_passes ltac:(lia)).
Defined.

(** The second line has a word where the schema has an [int]. *)
Definition bad_cell_script : list response :=
  [RText "#host:str,hits:int8"; RLines ["host,hits"; "a.example,1"; "b.example,many"]].

Lemma bad_cell_list :
  @Reader.query (Toy.env bad_cell_script) "from web" (DInt 10) (DInt 20) "list"
    "datetime" Toy.w0
  = (Return (Reader.OfLists (GYield [VStr "a.example"; VInt 1] (GRaise ValueError))),
     ragged_world).
Proof. vm_compute. reflexivity. Qed.

Lemma dataframe_raises_what_list_defers_witness :
  @Reader.query (Toy.env bad_cell_script) "from web" (DInt 10) (DInt 20) "dataframe"
    "datetime" Toy.w0
  = (Raise ValueError, ragged_world).
Proof.
  exact (@dataframe_raises_what_list_defers (Toy.env bad_cell_script) "from web"
           (DInt 10) (DInt 20) "datetime" Toy.w0 ragged_world _ ValueError
           bad_cell_list eq_refl eq_refl).
Defined.
